(** * bwproject: the Brandwatch API client (BWUser, BWProject)

    A shallow embedding of [src/bwproject.py].  Python values that travel
    through the client (JSON bodies, query parameters, keyword arguments)
    are a small dynamic value type; dictionaries keep insertion order;
    the token file, the default-argument dictionaries shared between calls
    and the console are explicit state threaded through a state-and-exception
    monad.

    Modelling conventions.
    - Text is [string]; one character per element.
    - JSON numbers are integers ([Z]); floating point numbers do not occur
      in the behaviour studied here.
    - The transport of [http] always delivers a response whose body parses
      as JSON.  Where the code reacts to a failing transport or to a token
      file that is not text (the handler of line 171), the failing part is
      an argument of the embedding ([assignAccessToken_with]).
    - The file system accepts every write; a file that cannot be opened for
      reading is the same as an absent one ([IOError]).
    - [open(path, "rU")] is universal-newline text mode, as on the
      interpreters this code was written for. *)

From Stdlib Require Import ZArith Ascii String List Lia.
From stdpp Require Import gmap strings list pretty.

Set Warnings "-register-all".

(** ** Characters and the string operations the client uses *)

Definition TAB : ascii := "009"%char.
Definition LF : ascii := "010"%char.
Definition CR : ascii := "013"%char.

Definition tab_s : string := String TAB EmptyString.
Definition lf_s : string := String LF EmptyString.

(** [s.split(sep)] for a one-character separator: never the empty list. *)
Fixpoint split (sep : ascii) (s : string) : list string :=
  match s with
  | EmptyString => [EmptyString]
  | String c rest =>
      if Ascii.eqb c sep then EmptyString :: split sep rest
      else match split sep rest with
           | w :: ws => String c w :: ws
           | [] => [String c EmptyString]
           end
  end.

(** [sep.join(l)]. *)
Definition join (sep : string) (l : list string) : string := String.concat sep l.

(** [c] occurs in [s]. *)
Fixpoint has_char (c : ascii) (s : string) : bool :=
  match s with
  | EmptyString => false
  | String c' rest => Ascii.eqb c' c || has_char c rest
  end.

(** What a text-mode read returns for the stored characters: with universal
    newlines a CR LF pair and a lone CR both read as LF. *)
Fixpoint universal_newlines (s : string) : string :=
  match s with
  | EmptyString => EmptyString
  | String c rest =>
      if Ascii.eqb c CR then
        match rest with
        | String c' rest' =>
            if Ascii.eqb c' LF then String LF (universal_newlines rest')
            else String LF (universal_newlines rest)
        | EmptyString => String LF EmptyString
        end
      else String c (universal_newlines rest)
  end.

(** ** Insertion-ordered dictionaries *)

Abbreviation dict V := (list (string * V)).

Fixpoint dict_get {V} (k : string) (d : dict V) : option V :=
  match d with
  | [] => None
  | (k', v) :: rest => if String.eqb k' k then Some v else dict_get k rest
  end.

(** [k in d]. *)
Definition dict_mem {V} (k : string) (d : dict V) : bool :=
  match dict_get k d with Some _ => true | None => false end.

(** [d[k] = v]: an existing key keeps its position, a new key goes last. *)
Fixpoint dict_set {V} (k : string) (v : V) (d : dict V) : dict V :=
  match d with
  | [] => [(k, v)]
  | (k', v') :: rest =>
      if String.eqb k' k then (k', v) :: rest else (k', v') :: dict_set k v rest
  end.

(** [dict(pairs)]: later pairs overwrite earlier ones. *)
Definition dict_of_pairs {V} (l : list (string * V)) : dict V :=
  fold_left (fun d kv => dict_set (fst kv) (snd kv) d) l [].

(** ** Python values *)

Inductive pyval : Type :=
| PNone
| PBool (b : bool)
| PInt (n : Z)
| PStr (s : string)
| PList (l : list pyval)
| PDict (d : list (string * pyval)).

(** [IOError] and [ValueError] stand for an instance of the class or of one
    of its subclasses (the exceptions of [requests] derive from IOError,
    UnicodeDecodeError from ValueError). *)
Inductive exn : Type :=
| KeyError (args : list pyval)
| TypeError
| AttributeError (attr : string)
| IOError
| ValueError.

(** The classes named in the [except] clause of line 171. *)
Inductive exn_class : Type := IOError_class | ValueError_class.

(** [a or b] on two classes: a class object is true, so [or] gives [a]. *)
Definition class_or (a b : exn_class) : exn_class := a.

(** [isinstance(e, c)]. *)
Definition is_instance (e : exn) (c : exn_class) : bool :=
  match e, c with
  | IOError, IOError_class => true
  | ValueError, ValueError_class => true
  | _, _ => false
  end.

Inductive outcome (A : Type) : Type :=
| Ret (a : A)
| Raise (e : exn).
Arguments Ret {A} a.
Arguments Raise {A} e.

(** Truth value of an object in a condition. *)
Definition truthy (v : pyval) : bool :=
  match v with
  | PNone => false
  | PBool b => b
  | PInt n => negb (Z.eqb n 0)
  | PStr s => negb (String.eqb s "")
  | PList l => match l with [] => false | _ => true end
  | PDict d => match d with [] => false | _ => true end
  end.

(** [v == s] for a string [s]. *)
Definition eq_str (v : pyval) (s : string) : bool :=
  match v with PStr s' => String.eqb s' s | _ => false end.

(** [v != None]. *)
Definition not_none (v : pyval) : bool :=
  match v with PNone => false | _ => true end.

(** [v == {}]. *)
Definition is_empty_dict (v : pyval) : bool :=
  match v with PDict [] => true | _ => false end.

(** [k in v] for a string [k]: key of a dict, element of a list, substring
    of a string; other objects are not containers. *)
Definition py_in (k : string) (v : pyval) : outcome bool :=
  match v with
  | PDict d => Ret (dict_mem k d)
  | PList l => Ret (existsb (fun x => eq_str x k) l)
  | PStr s => Ret (match String.index 0 k s with Some _ => true | None => false end)
  | _ => Raise TypeError
  end.

(** [v[k]] for a string [k]. *)
Definition py_getitem (v : pyval) (k : string) : outcome pyval :=
  match v with
  | PDict d => match dict_get k d with
               | Some x => Ret x
               | None => Raise (KeyError [PStr k])
               end
  | _ => Raise TypeError
  end.

(** The items a [for] loop over [v] visits. *)
Definition py_iter (v : pyval) : outcome (list pyval) :=
  match v with
  | PList l => Ret l
  | PDict d => Ret (map (fun kv => PStr (fst kv)) d)
  | PStr s => Ret (map (fun c => PStr (String c EmptyString)) (list_ascii_of_string s))
  | _ => Raise TypeError
  end.

(** [s + v] for a string [s]. *)
Definition py_concat (s : string) (v : pyval) : outcome string :=
  match v with
  | PStr t => Ret (s +:+ t)
  | _ => Raise TypeError
  end.

(** ** The token file (lines 157-158 and 167) *)

(** [[x.split("\t") for x in text.split("\n") if len(x.split("\t")) == 2]] *)
Definition token_records (text : string) : list (string * string) :=
  omap (fun x => match split TAB x with
                 | [k; v] => Some (k, v)
                 | _ => None
                 end)
       (split LF text).

Definition parse_tokens (text : string) : dict string :=
  dict_of_pairs (token_records text).

(** ["\n".join(["\t".join(x) for x in tokens.items()])] *)
Definition serialize_tokens (tokens : dict string) : string :=
  join lf_s (map (fun kv => join tab_s [fst kv; snd kv]) tokens).

(** ** The world: token files, shared dictionaries, console, network *)

Inductive verb : Type := GET | DELETE | POST | PUT | PATCH.

(** What [verb(url, params = ..., data = ..., headers = ...)] hands to the
    transport; [req_params] is the content of the mapping at that moment. *)
Record http_request : Type := mk_request {
  req_verb : verb;
  req_url : string;
  req_params : dict pyval;
  req_data : option pyval;
  req_headers : list (string * string)
}.

(** [response.url] and [response.json()]. *)
Record response : Type := mk_response {
  resp_url : string;
  resp_json : pyval
}.

(** Dictionaries that are passed by reference live in a heap. *)
Definition loc := nat.

(** The dictionaries created once by the [def] statements as default values
    of [params] and [data] (lines 94, 109, 247, 260, 273, 287, 301). *)
Definition request_params_default : loc := 0.
Definition request_data_default : loc := 1.
Definition bare_request_params_default : loc := 2.
Definition bare_request_data_default : loc := 3.
Definition get_params_default : loc := 4.
Definition delete_params_default : loc := 5.
Definition post_params_default : loc := 6.
Definition post_data_default : loc := 7.
Definition put_params_default : loc := 8.
Definition put_data_default : loc := 9.
Definition patch_params_default : loc := 10.
Definition patch_data_default : loc := 11.

Inductive event : Type :=
| EvSleep
| EvRequest (r : http_request)
| EvPrint (v : pyval)
| EvPrintUrl (u : string)
| EvOpenRead (path : string)
| EvOpenWrite (path : string)
| EvWrite (path : string) (text : string).

(** [heap !!! l] is the content of the dictionary at [l]; a location never
    written holds the empty dictionary. *)
Record state : Type := mk_state {
  files : gmap string string;
  heap : gmap loc (list (string * pyval));
  next_loc : loc;
  trace : list event
}.

(** The state right after the module is loaded, for a given disk. *)
Definition initial_state (disk : gmap string string) : state :=
  mk_state disk ∅ 12 [].

Definition M (A : Type) : Type := state -> outcome A * state.

Definition ret {A} (a : A) : M A := fun st => (Ret a, st).
Definition raise {A} (e : exn) : M A := fun st => (Raise e, st).
Definition bind {A B} (m : M A) (k : A -> M B) : M B :=
  fun st => match m st with
            | (Ret a, st') => k a st'
            | (Raise e, st') => (Raise e, st')
            end.
Definition lift {A} (o : outcome A) : M A := fun st => (o, st).

Notation "x <- m ;; k" := (bind m (fun x => k))
  (at level 100, m at next level, right associativity).
Notation "m ;;; k" := (bind m (fun _ => k))
  (at level 100, right associativity).

Definition emit (e : event) : M unit :=
  fun st => (Ret tt, mk_state (files st) (heap st) (next_loc st) (trace st ++ [e])).

Definition deref (l : loc) : M (dict pyval) :=
  fun st => (Ret (heap st !!! l), st).

Definition store (l : loc) (d : dict pyval) : M unit :=
  fun st => (Ret tt, mk_state (files st) (<[l := d]> (heap st)) (next_loc st) (trace st)).

(** A new dictionary object. *)
Definition alloc (d : dict pyval) : M loc :=
  fun st => (Ret (next_loc st),
             mk_state (files st) (<[next_loc st := d]> (heap st)) (S (next_loc st)) (trace st)).

(** [open(path, "rU").read()], or [None] when opening raises IOError. *)
Definition read_file (path : string) : M (option string) :=
  fun st => (Ret (universal_newlines <$> files st !! path),
             mk_state (files st) (heap st) (next_loc st) (trace st ++ [EvOpenRead path])).

(** [open(path, "w")]: the file exists and is empty from here on. *)
Definition open_write (path : string) : M unit :=
  fun st => (Ret tt,
             mk_state (<[path := EmptyString]> (files st)) (heap st) (next_loc st)
                      (trace st ++ [EvOpenWrite path])).

(** [tokensfile.write(text)] followed by [close()]. *)
Definition write_file (path : string) (text : string) : M unit :=
  fun st => (Ret tt,
             mk_state (<[path := text]> (files st)) (heap st) (next_loc st)
                      (trace st ++ [EvWrite path text])).

(** An argument that is either a shared dictionary or a value of the
    caller (a string, a list, a dictionary nobody else holds). *)
Inductive data_arg : Type :=
| DataRef (l : loc)
| DataVal (v : pyval).

Definition data_value (d : data_arg) : M pyval :=
  match d with
  | DataRef l => c <- deref l ;; ret (PDict c)
  | DataVal v => ret v
  end.

(** [try: body except c: handler]. *)
Definition try_except {A} (body : M A) (c : exn_class) (handler : M A) : M A :=
  fun st => match body st with
            | (Raise e, st') => if is_instance e c then handler st' else (Raise e, st')
            | done => done
            end.

(** What lines 157-158 get from the file: its text, IOError when it cannot
    be opened, ValueError when its bytes are not text in the encoding in
    use. *)
Inductive read_outcome : Type :=
| ReadText (text : string)
| ReadIOError
| ReadValueError.

(** Lines 157-158 on the file system of the state, whose files all hold
    text. *)
Definition read_token_file (path : string) : M read_outcome :=
  opened <- read_file path ;;
  ret (match opened with
       | Some text => ReadText text
       | None => ReadIOError
       end).

(** ** class BWUser *)

(** The attributes of an instance.  [console_report] is assigned by
    [BWProject.__init__] only (line 222): [None] is an instance without
    that attribute, on which reading it raises AttributeError. *)
Record BWUser : Type := mk_BWUser {
  apiurl : string;
  oauthpath : string;
  username : string;
  password : string;
  token : string;
  console_report : option bool
}.

Section Client.

(** The remote end: the response to each request. *)
Variable server : http_request -> response.

(** One call of a [requests] verb. *)
Definition http (r : http_request) : M response :=
  emit (EvRequest r) ;;; ret (server r).

(** Lines 178-191. *)
Definition getAccessToken (self : BWUser) : M pyval :=
  let params := [("username", PStr (username self));
                 ("password", PStr (password self));
                 ("grant_type", PStr "api-password");
                 ("client_id", PStr "brandwatch-api-client")] in
  at_ <- http (mk_request GET (apiurl self +:+ oauthpath self) params None []) ;;
  has <- lift (py_in "access_token" (resp_json at_)) ;;
  if has : bool then
    tok <- lift (py_getitem (resp_json at_) "access_token") ;;
    if not_none tok then ret tok
    else ret PNone
  else
    errs <- lift (py_getitem (resp_json at_) "errors") ;;
    raise (KeyError [PStr "Cannot get access token"; errs]).

(** Lines 145-176, with the two things the method gets from outside as
    arguments: [read], the opening and reading of lines 157-158, and
    [fetch], the call of [getAccessToken] on lines 164 and 172.  The clause
    of line 171 names [IOError or ValueError]; an IOError raised anywhere
    in the [try] block, by [open] or by the fetch, enters the handler, and
    the handler fetches again. *)
Definition assignAccessToken_with (read : M read_outcome) (fetch : M pyval)
    (self : BWUser) (token_path : string) (fromfile : bool) : M string :=
  try_except
    (r <- read ;;
     match r with
     | ReadIOError => raise IOError
     | ReadValueError => raise ValueError
     | ReadText text =>
         let tokens := parse_tokens text in
         match fromfile, dict_get (username self) tokens with
         | true, Some cached => ret cached
         | _, _ =>
             tok <- fetch ;;
             open_write token_path ;;;
             match tok with
             | PStr t =>
                 write_file token_path
                            (serialize_tokens (dict_set (username self) t tokens)) ;;;
                 ret t
             | _ => raise TypeError
             end
         end
     end)
    (class_or IOError_class ValueError_class)
    (tok <- fetch ;;
     open_write token_path ;;;
     line <- lift (py_concat (username self +:+ tab_s) tok) ;;
     write_file token_path line ;;;
     match tok with
     | PStr t => ret t
     | _ => raise TypeError
     end).

(** Lines 145-176 on the file system and the transport of this model. *)
Definition assignAccessToken (self : BWUser) (token_path : string) (fromfile : bool)
  : M string :=
  assignAccessToken_with (read_token_file token_path) (getAccessToken self)
                         self token_path fromfile.

(** Lines 20-38. *)
Definition BWUser_init (username_ password_ token_ token_path : string) : M BWUser :=
  let self := mk_BWUser "https://newapi.brandwatch.com/" "oauth/token"
                        username_ password_ EmptyString None in
  if negb (String.eqb token_ "") then
    ret (mk_BWUser (apiurl self) (oauthpath self) username_ password_ token_ None)
  else
    t <- assignAccessToken self token_path true ;;
    ret (mk_BWUser (apiurl self) (oauthpath self) username_ password_ t None).

(** Lines 109-143. *)
Definition bare_request (self : BWUser) (v : verb) (address_root address_suffix : string)
    (access_token : string) (params : option loc) (data : option data_arg) : M pyval :=
  let params := default bare_request_params_default params in
  let data := default (DataRef bare_request_data_default) data in
  emit EvSleep ;;;
  (if negb (String.eqb access_token "") then
     d <- deref params ;;
     store params (dict_set "access_token" (PStr access_token) d)
   else ret tt) ;;;
  body <- data_value data ;;
  sent <- deref params ;;
  response <- (if is_empty_dict body then
                 http (mk_request v (address_root +:+ address_suffix) sent None [])
               else
                 http (mk_request v (address_root +:+ address_suffix) sent (Some body)
                                  [("Content-type", "application/json")])) ;;
  has <- lift (py_in "errors" (resp_json response)) ;;
  nonempty <- (if has : bool then
                 errs <- lift (py_getitem (resp_json response) "errors") ;;
                 ret (truthy errs)
               else ret false) ;;
  report <- (if nonempty : bool then
               match console_report self with
               | Some b => ret b
               | None => raise (AttributeError "console_report")
               end
             else ret false) ;;
  (if report : bool then emit (EvPrint (resp_json response)) else ret tt) ;;;
  emit (EvPrintUrl (resp_url response)) ;;;
  ret (resp_json response).

(** Lines 94-107. *)
Definition request (self : BWUser) (v : verb) (address : string)
    (params : option loc) (data : option data_arg) : M pyval :=
  let params := default request_params_default params in
  let data := default (DataRef request_data_default) data in
  bare_request self v (apiurl self) address (token self) (Some params) (Some data).

(** Lines 40-48. *)
Definition get_projects (self : BWUser) : M pyval :=
  response <- request self GET "projects" None None ;;
  has <- lift (py_in "results" response) ;;
  if has : bool then lift (py_getitem response "results") else ret response.

(** Lines 50-52. *)
Definition get_self (self : BWUser) : M pyval :=
  request self GET "me" None None.

(** The body shared by the two validators, lines 65-72 and 85-92, with the
    address as its only difference.  [kwargs] is the dictionary of keyword
    arguments, a new object at every call. *)
Definition validate (self : BWUser) (address : string) (kwargs : dict pyval) : M unit :=
  if negb (dict_mem "query" kwargs) then
    raise (KeyError [PStr "Must pass: query = 'search terms'"])
  else
    let kwargs := if negb (dict_mem "language" kwargs)
                  then dict_set "language" (PList [PStr "en"]) kwargs
                  else kwargs in
    l <- alloc kwargs ;;
    valid_search <- request self GET address (Some l) None ;;
    errs <- lift (py_getitem valid_search "errors") ;;
    if truthy errs then raise (KeyError [PStr "Search string error: "; errs])
    else ret tt.

(** Lines 54-72. *)
Definition validate_query_search (self : BWUser) (kwargs : dict pyval) : M unit :=
  validate self "query-validation" kwargs.

(** Lines 74-92. *)
Definition validate_rule_search (self : BWUser) (kwargs : dict pyval) : M unit :=
  validate self "query-validation/searchwithin" kwargs.

End Client.

(** ** class BWProject(BWUser) *)

(** A project instance: the inherited attributes and the three the class
    adds.  [console_report] of [as_user] is always assigned here. *)
Record BWProject : Type := mk_BWProject {
  as_user : BWUser;
  project_name : string;
  project_id : pyval;
  project_address : string
}.

(** The inherited part of a project instance (lines 218 and 222). *)
Definition project_base (u : BWUser) (console_report_ : bool) : BWUser :=
  mk_BWUser (apiurl u) (oauthpath u) (username u) (password u) (token u)
            (Some console_report_).

Module Project.
Section Methods.

Variable server : http_request -> response.

(** [str] of a list or of a dictionary is the [repr] of a container, which
    is left abstract. *)
Variable repr_container : pyval -> string.

(** [str(v)]. *)
Definition py_str (v : pyval) : string :=
  match v with
  | PNone => "None"
  | PBool true => "True"
  | PBool false => "False"
  | PInt n => pretty n
  | PStr s => s
  | PList _ | PDict _ => repr_container v
  end.

(** The loop of lines 236-245 over the items of [projects]. *)
Fixpoint scan_projects (self : BWProject) (project : string) (items : list pyval)
  : outcome BWProject :=
  match items with
  | [] => Raise (KeyError [PStr ("Project " +:+ project +:+ " not found")])
  | p :: rest =>
      match py_getitem p "name" with
      | Raise e => Raise e
      | Ret name =>
          if eq_str name project then
            match py_getitem p "id" with
            | Raise e => Raise e
            | Ret id =>
                Ret (mk_BWProject (as_user self) project id
                                  ("projects/" +:+ py_str id +:+ "/"))
            end
          else scan_projects self project rest
      end
  end.

(** Lines 226-245; the updated instance is the result. *)
Definition get_project (self : BWProject) (project : string) : M BWProject :=
  projects <- get_projects server (as_user self) ;;
  items <- lift (py_iter projects) ;;
  lift (scan_projects self project items).

(** Lines 206-223. *)
Definition init (username_ project password_ token_ token_path : string)
    (console_report_ : bool) : M BWProject :=
  u <- BWUser_init server username_ password_ token_ token_path ;;
  let self := mk_BWProject (project_base u console_report_)
                           EmptyString (PInt (-1)) EmptyString in
  get_project self project.

(** Lines 247-258. *)
Definition get (self : BWProject) (endpoint : string) (params : option loc) : M pyval :=
  request server (as_user self) GET (project_address self +:+ endpoint)
          (Some (default get_params_default params)) None.

(** Lines 260-271. *)
Definition delete (self : BWProject) (endpoint : string) (params : option loc) : M pyval :=
  request server (as_user self) DELETE (project_address self +:+ endpoint)
          (Some (default delete_params_default params)) None.

(** Lines 273-285. *)
Definition post (self : BWProject) (endpoint : string) (params : option loc)
    (data : option data_arg) : M pyval :=
  request server (as_user self) POST (project_address self +:+ endpoint)
          (Some (default post_params_default params))
          (Some (default (DataRef post_data_default) data)).

(** Lines 287-299. *)
Definition put (self : BWProject) (endpoint : string) (params : option loc)
    (data : option data_arg) : M pyval :=
  request server (as_user self) PUT (project_address self +:+ endpoint)
          (Some (default put_params_default params))
          (Some (default (DataRef put_data_default) data)).

(** Lines 301-313. *)
Definition patch (self : BWProject) (endpoint : string) (params : option loc)
    (data : option data_arg) : M pyval :=
  request server (as_user self) PATCH (project_address self +:+ endpoint)
          (Some (default patch_params_default params))
          (Some (default (DataRef patch_data_default) data)).

(** The five verb methods under one name. *)
Definition call (v : verb) (self : BWProject) (endpoint : string) : M pyval :=
  match v with
  | GET => get self endpoint None
  | DELETE => delete self endpoint None
  | POST => post self endpoint None None
  | PUT => put self endpoint None None
  | PATCH => patch self endpoint None None
  end.

End Methods.
End Project.

(** ** The state and the calls as the statements see them *)

(** What lines 157-162 find for [user] in the file at [path]: the cached
    token, or [None] for a cache miss. *)
Definition cached_token (st : state) (path user : string) : option string :=
  match files st !! path with
  | Some raw => dict_get user (parse_tokens (universal_newlines raw))
  | None => None
  end.

(** No tab, line feed or carriage return in [s]. *)
Definition clean (s : string) : bool :=
  negb (has_char TAB s || has_char LF s || has_char CR s).

(** No key occurs twice. *)
Fixpoint uniq_keys {V} (d : dict V) : Prop :=
  match d with
  | [] => True
  | (k, _) :: rest => dict_get k rest = None /\ uniq_keys rest
  end.

(** Both fields of a token record are [clean]. *)
Definition clean_entry (kv : string * string) : Prop :=
  clean (fst kv) = true /\ clean (snd kv) = true.

(** The request [getAccessToken] sends (lines 180-185). *)
Definition oauth_request (self : BWUser) : http_request :=
  mk_request GET (apiurl self +:+ oauthpath self)
             [("username", PStr (username self));
              ("password", PStr (password self));
              ("grant_type", PStr "api-password");
              ("client_id", PStr "brandwatch-api-client")]
             None [].

(** The token endpoint answers with an object whose [access_token] is the
    string [t]. *)
Definition grants (server : http_request -> response) (self : BWUser) (t : string) : Prop :=
  exists d, resp_json (server (oauth_request self)) = PDict d /\
            dict_get "access_token" d = Some (PStr t).

(** [st] with [evs] added to the console and call log, nothing else changed. *)
Definition log (st : state) (evs : list event) : state :=
  mk_state (files st) (heap st) (next_loc st) (trace st ++ evs).

(** [st] with the file at [path] holding [text]. *)
Definition with_file (st : state) (path text : string) : state :=
  mk_state (<[path := text]> (files st)) (heap st) (next_loc st) (trace st).

(** The text a save leaves in the token file, given what the file held
    before ([None]: no file): lines 165-167 and line 174. *)
Definition saved_text (old : option string) (user t : string) : string :=
  match old with
  | Some raw => serialize_tokens (dict_set user t (parse_tokens (universal_newlines raw)))
  | None => (user +:+ tab_s) +:+ t
  end.

(** The instance [BWUser.__init__] leaves behind for a resolved token. *)
Definition new_user (user pw t : string) : BWUser :=
  mk_BWUser "https://newapi.brandwatch.com/" "oauth/token" user pw t None.

(** The dictionary line 158 builds from what the file held ([None]: no file). *)
Definition stored_tokens (old : option string) : dict string :=
  match old with
  | Some raw => parse_tokens (universal_newlines raw)
  | None => []
  end.

(** ** The dispatcher seen from outside *)

(** Lines 125-126 on the content of the mapping. *)
Definition inject_token (tok : string) (d : dict pyval) : dict pyval :=
  if negb (String.eqb tok "") then dict_set "access_token" (PStr tok) d else d.

(** [st] with the dictionary at [l] holding [d]. *)
Definition with_dict (st : state) (l : loc) (d : dict pyval) : state :=
  mk_state (files st) (<[l := d]> (heap st)) (next_loc st) (trace st).

(** The state lines 125-126 leave, the console apart. *)
Definition injected (st : state) (tok : string) (l : loc) : state :=
  if negb (String.eqb tok "") then
    with_dict st l (dict_set "access_token" (PStr tok) (heap st !!! l))
  else st.

(** The value [data] stands for in [st]. *)
Definition body_of (st : state) (d : data_arg) : pyval :=
  match d with
  | DataRef l => PDict (heap st !!! l)
  | DataVal v => v
  end.

(** The call of lines 128-134. *)
Definition built_request (v : verb) (url : string) (sent : dict pyval) (body : pyval)
  : http_request :=
  if is_empty_dict body then mk_request v url sent None []
  else mk_request v url sent (Some body) [("Content-type", "application/json")].

(** The condition of line 136, evaluated left to right: whether the body is
    printed, or the exception the evaluation raises. *)
Definition report_decision (cr : option bool) (j : pyval) : outcome bool :=
  match py_in "errors" j with
  | Raise e => Raise e
  | Ret false => Ret false
  | Ret true =>
      match py_getitem j "errors" with
      | Raise e => Raise e
      | Ret errs =>
          if truthy errs then
            match cr with
            | Some b => Ret b
            | None => Raise (AttributeError "console_report")
            end
          else Ret false
      end
  end.

(** The requests among the events, oldest first. *)
Definition requests_of (evs : list event) : list http_request :=
  omap (fun e => match e with EvRequest r => Some r | _ => None end) evs.

(** [q] has a name, and it is not [project]. *)
Definition other_name (project : string) (q : pyval) : Prop :=
  exists n, py_getitem q "name" = Ret n /\ eq_str n project = false.

(** The instance a successful resolution leaves (lines 238-240). *)
Definition resolved (repr_container : pyval -> string) (base : BWUser)
    (project : string) (id : pyval) : BWProject :=
  mk_BWProject base project id ("projects/" +:+ Project.py_str repr_container id +:+ "/").

(** What lines 187-191 make of the answer [j] of the token endpoint. *)
Definition token_answer (j : pyval) : outcome pyval :=
  match py_in "access_token" j with
  | Raise e => Raise e
  | Ret true =>
      match py_getitem j "access_token" with
      | Raise e => Raise e
      | Ret tok => if not_none tok then Ret tok else Ret PNone
      end
  | Ret false =>
      match py_getitem j "errors" with
      | Raise e => Raise e
      | Ret errs => Raise (KeyError [PStr "Cannot get access token"; errs])
      end
  end.

(** [v] is a [str]. *)
Definition is_str (v : pyval) : bool :=
  match v with PStr _ => true | _ => false end.

(** The token file is consulted and has nothing usable for the user of
    [self]: line 161 fails. *)
Definition must_fetch (st : state) (self : BWUser) (path : string) (fromfile : bool) : Prop :=
  fromfile = false \/ cached_token st path (username self) = None.

(** The number of tab-separated fields of a line (line 158). *)
Definition field_count (line : string) : nat := length (split TAB line).

(** The object [d] has an [errors] field with a true value (the first two
    conjuncts of line 136). *)
Definition errors_nonempty (d : dict pyval) : bool :=
  match dict_get "errors" d with
  | Some errs => truthy errs
  | None => false
  end.

(** [None], a boolean or a number: not a container. *)
Definition is_scalar (v : pyval) : bool :=
  match v with
  | PNone | PBool _ | PInt _ => true
  | _ => false
  end.

(** The dictionary a verb method of [BWProject] passes as [params] when the
    caller gives none. *)
Definition params_default_of (v : verb) : loc :=
  match v with
  | GET => get_params_default
  | DELETE => delete_params_default
  | POST => post_params_default
  | PUT => put_params_default
  | PATCH => patch_params_default
  end.

(** The dictionary that reaches the dispatcher as [data] when the caller of
    a verb method gives none: the method's own default, or the default of
    [request] for the two methods without a [data] argument. *)
Definition data_default_of (v : verb) : loc :=
  match v with
  | GET | DELETE => request_data_default
  | POST => post_data_default
  | PUT => put_data_default
  | PATCH => patch_data_default
  end.

(** The default [data] dictionaries are as the [def] statements made them. *)
Definition data_defaults_empty (st : state) : Prop :=
  forall v, heap st !!! data_default_of v = [].

(** The paths of the files opened or written among the events, oldest first. *)
Definition opens_of (evs : list event) : list string :=
  omap (fun e => match e with
                 | EvOpenRead f | EvOpenWrite f | EvWrite f _ => Some f
                 | _ => None
                 end) evs.

(** From the description of the storage format (newline-separated records,
    each the user name, a tab and the token): [text] has the record of
    [user] with [t] as one whole record, at the start of the text or right
    after a newline, and up to the end of the text or a newline. *)
Definition holds_record (text user t : string) : Prop :=
  exists before after,
    text = before +:+ (user +:+ tab_s +:+ t) +:+ after /\
    (before = EmptyString \/ exists b, before = b +:+ lf_s) /\
    (after = EmptyString \/ exists a, after = lf_s +:+ a).

(** ** Test data *)

Definition alice_disk : gmap string string :=
  {[ "tokens.txt" := "alice" +:+ tab_s +:+ "tok123" ]}.

(** A server that answers every request with the same body. *)
Definition const_server (body : pyval) : http_request -> response :=
  fun r => mk_response (req_url r) body.

Definition no_repr : pyval -> string := fun _ => EmptyString.

Definition plain_user : BWUser :=
  mk_BWUser "https://newapi.brandwatch.com/" "oauth/token" "alice" EmptyString "tok123" None.

(** A token endpoint that grants [t] whatever the credentials. *)
Definition token_server (t : pyval) : http_request -> response :=
  const_server (PDict [("access_token", t)]).

Definition tabbed_token : string := "tok" +:+ tab_s +:+ "123".

Definition project_user : BWUser :=
  mk_BWUser "https://newapi.brandwatch.com/" "oauth/token" "alice" EmptyString "tok123"
            (Some true).

(** A body that reports errors, as the API sends it with status 200. *)
Definition error_body : pyval := PDict [("errors", PList [PStr "bad query"])].

Definition query_kwargs : dict pyval := [("query", PStr "cat AND")].

(** The project list of the example in the specification. *)
Definition acme_body : pyval :=
  PDict [("results", PList [PDict [("name", PStr "Beta"); ("id", PInt 7)];
                            PDict [("name", PStr "Acme"); ("id", PInt 42)];
                            PDict [("name", PStr "Acme"); ("id", PInt 99)]])].

(** An instance whose cached token is the empty string (a line "carol TAB"
    in the token file). *)
Definition empty_token_user : BWUser :=
  mk_BWUser "https://newapi.brandwatch.com/" "oauth/token" "carol" EmptyString EmptyString
            (Some true).

(** The instance of the example in the specification. *)
Definition acme_session : BWProject :=
  mk_BWProject project_user "Acme" (PInt 42) "projects/42/".

(** Lines 157-158 on a file that opens but whose bytes are not text. *)
Definition read_undecodable (path : string) : M read_outcome :=
  emit (EvOpenRead path) ;;; ret ReadValueError.

(** Lines 157-158 on a file that cannot be opened. *)
Definition read_unopenable (path : string) : M read_outcome :=
  emit (EvOpenRead path) ;;; ret ReadIOError.

(** A fetch that finds no connection the first time it is tried and is
    granted [t] afterwards. *)
Definition flaky_fetch (self : BWUser) (t : string) : M pyval :=
  fun st => match requests_of (trace st) with
            | [] => (Raise IOError, log st [EvRequest (oauth_request self)])
            | _ :: _ => (Ret (PStr t), log st [EvRequest (oauth_request self)])
            end.

(** * Properties *)

(** ** Strings *)

Lemma append_nil_l (b : string) : EmptyString +:+ b = b.
Proof. reflexivity. Qed.

Lemma append_cons (x : ascii) (a b : string) : String x a +:+ b = String x (a +:+ b).
Proof. reflexivity. Qed.

Lemma append_assoc (a b c : string) : (a +:+ b) +:+ c = a +:+ (b +:+ c).
Proof.
  induction a as [|x a IH]; [reflexivity|].
  rewrite !append_cons, IH. reflexivity.
Qed.

Lemma has_char_app c a b : has_char c (a +:+ b) = has_char c a || has_char c b.
Proof.
  induction a as [|x a IH]; [reflexivity|].
  rewrite append_cons. simpl. rewrite IH. apply orb_assoc.
Qed.

Lemma split_no_sep sep s : has_char sep s = false -> split sep s = [s].
Proof.
  induction s as [|c s IH]; simpl; intros H; [reflexivity|].
  apply orb_false_elim in H as [H1 H2].
  rewrite H1, (IH H2). reflexivity.
Qed.

Lemma split_app_sep sep a b :
  has_char sep a = false -> split sep (a +:+ String sep b) = a :: split sep b.
Proof.
  induction a as [|c a IH]; intros H.
  - rewrite append_nil_l. simpl. rewrite Ascii.eqb_refl. reflexivity.
  - rewrite append_cons. simpl in *.
    apply orb_false_elim in H as [H1 H2].
    rewrite H1, (IH H2). reflexivity.
Qed.

Lemma split_join sep l :
  l <> [] -> Forall (fun s => has_char sep s = false) l ->
  split sep (join (String sep EmptyString) l) = l.
Proof.
  induction l as [|x l IH]; intros Hne Hall; [congruence|].
  apply Forall_cons in Hall as [Hx Hl].
  destruct l as [|y l].
  - simpl. apply split_no_sep, Hx.
  - unfold join in *. change (String.concat (String sep EmptyString) (x :: y :: l))
      with (x +:+ String sep (String.concat (String sep EmptyString) (y :: l))).
    rewrite (split_app_sep _ _ _ Hx), IH; [reflexivity|congruence|exact Hl].
Qed.

(** The pieces of a split are free of the separator, and of every
    character the text is free of. *)
Lemma split_parts_no_sep sep s : Forall (fun w => has_char sep w = false) (split sep s).
Proof.
  induction s as [|c s IH]; simpl.
  - repeat constructor.
  - destruct (Ascii.eqb c sep) eqn:E.
    + constructor; [reflexivity|exact IH].
    + destruct (split sep s) as [|w ws].
      * repeat constructor. simpl. rewrite E. reflexivity.
      * apply Forall_cons in IH as [Hw Hws].
        constructor; [|exact Hws]. simpl. rewrite E, Hw. reflexivity.
Qed.

Lemma split_parts_keep c sep s :
  has_char c s = false -> Forall (fun w => has_char c w = false) (split sep s).
Proof.
  induction s as [|x s IH]; simpl; intros H.
  - repeat constructor.
  - apply orb_false_elim in H as [H1 H2]. specialize (IH H2).
    destruct (Ascii.eqb x sep).
    + constructor; [reflexivity|exact IH].
    + destruct (split sep s) as [|w ws].
      * repeat constructor. simpl. rewrite H1. reflexivity.
      * apply Forall_cons in IH as [Hw Hws].
        constructor; [|exact Hws]. simpl. rewrite H1, Hw. reflexivity.
Qed.

Lemma universal_newlines_no_CR s : has_char CR (universal_newlines s) = false.
Proof.
  induction s as [|c s IH]; [reflexivity|].
  simpl. destruct (Ascii.eqb c CR) eqn:E.
  - destruct s as [|c' s']; [reflexivity|].
    destruct (Ascii.eqb c' LF) eqn:E'.
    + apply Ascii.eqb_eq in E'. subst c'. exact IH.
    + simpl. exact IH.
  - simpl. rewrite E. exact IH.
Qed.

Lemma universal_newlines_id s : has_char CR s = false -> universal_newlines s = s.
Proof.
  induction s as [|c s IH]; simpl; intros H; [reflexivity|].
  apply orb_false_elim in H as [H1 H2].
  rewrite H1, (IH H2). reflexivity.
Qed.

Lemma clean_spec s :
  clean s = true <->
  has_char TAB s = false /\ has_char LF s = false /\ has_char CR s = false.
Proof.
  unfold clean.
  destruct (has_char TAB s), (has_char LF s), (has_char CR s); simpl; intuition congruence.
Qed.

(** ** Dictionaries *)

Lemma dict_get_set_eq {V} k (v : V) d : dict_get k (dict_set k v d) = Some v.
Proof.
  induction d as [|[k' v'] d IH]; simpl.
  - rewrite String.eqb_refl. reflexivity.
  - destruct (String.eqb k' k) eqn:E; simpl; rewrite E; [reflexivity|exact IH].
Qed.

Lemma dict_get_set_ne {V} k k' (v : V) d :
  k <> k' -> dict_get k' (dict_set k v d) = dict_get k' d.
Proof.
  intros Hne. induction d as [|[k0 v0] d IH]; simpl.
  - apply String.eqb_neq in Hne. rewrite Hne. reflexivity.
  - destruct (String.eqb k0 k) eqn:E; simpl.
    + apply String.eqb_eq in E. subst k0.
      apply String.eqb_neq in Hne. rewrite Hne. reflexivity.
    + rewrite IH. reflexivity.
Qed.

Lemma dict_get_app {V} k (a b : dict V) :
  dict_get k (a ++ b) = match dict_get k a with Some v => Some v | None => dict_get k b end.
Proof.
  induction a as [|[k' v'] a IH]; simpl; [reflexivity|].
  destruct (String.eqb k' k); [reflexivity|exact IH].
Qed.

Lemma dict_set_fresh {V} k (v : V) d :
  dict_get k d = None -> dict_set k v d = d ++ [(k, v)].
Proof.
  induction d as [|[k' v'] d IH]; simpl; intros H; [reflexivity|].
  destruct (String.eqb k' k); [discriminate|]. rewrite (IH H). reflexivity.
Qed.

Lemma dict_set_nonempty {V} k (v : V) d : dict_set k v d <> [].
Proof. destruct d as [|[k' v'] d]; simpl; [|destruct (String.eqb k' k)]; discriminate. Qed.

Lemma dict_set_uniq {V} k (v : V) d : uniq_keys d -> uniq_keys (dict_set k v d).
Proof.
  induction d as [|[k' v'] d IH]; simpl.
  - intros _. split; [reflexivity|exact I].
  - intros [Hk Hd]. destruct (String.eqb k' k) eqn:E; simpl.
    + split; assumption.
    + split; [|apply IH, Hd].
      rewrite dict_get_set_ne; [exact Hk|].
      intros ->. rewrite String.eqb_refl in E. discriminate.
Qed.

Lemma dict_set_elem {V} k (v : V) d kv :
  kv ∈ dict_set k v d -> kv = (k, v) \/ kv ∈ d.
Proof.
  induction d as [|[k' v'] d IH]; simpl; intros H.
  - apply list_elem_of_singleton in H. left. exact H.
  - rewrite elem_of_cons. destruct (String.eqb k' k) eqn:E.
    + apply String.eqb_eq in E. subst k'.
      apply elem_of_cons in H as [H|H]; tauto.
    + apply elem_of_cons in H as [H|H]; [tauto|].
      destruct (IH H); tauto.
Qed.

Lemma uniq_keys_middle {V} (a : dict V) k v r :
  uniq_keys (a ++ (k, v) :: r) -> dict_get k a = None.
Proof.
  induction a as [|[k' v'] a IH]; simpl; [reflexivity|].
  intros [Hk Ha]. rewrite dict_get_app in Hk.
  destruct (dict_get k' a) eqn:Ea; [discriminate|]. simpl in Hk.
  destruct (String.eqb k k') eqn:E; [discriminate|].
  rewrite String.eqb_sym, E. apply IH, Ha.
Qed.

Lemma dict_fold_uniq {V} (l acc : dict V) :
  uniq_keys acc ->
  uniq_keys (fold_left (fun d kv => dict_set (fst kv) (snd kv) d) l acc).
Proof.
  revert acc. induction l as [|[k v] l IH]; simpl; intros acc H; [exact H|].
  apply IH, dict_set_uniq, H.
Qed.

Lemma dict_fold_elem {V} (l acc : dict V) kv :
  kv ∈ fold_left (fun d kv => dict_set (fst kv) (snd kv) d) l acc ->
  kv ∈ acc \/ kv ∈ l.
Proof.
  revert acc. induction l as [|[k v] l IH]; simpl; intros acc H; [left; exact H|].
  rewrite elem_of_cons.
  destruct (IH _ H) as [H'|H']; [|tauto].
  apply dict_set_elem in H'. tauto.
Qed.

Lemma dict_fold_id {V} (l acc : dict V) :
  uniq_keys (acc ++ l) ->
  fold_left (fun d kv => dict_set (fst kv) (snd kv) d) l acc = acc ++ l.
Proof.
  revert acc. induction l as [|[k v] l IH]; simpl; intros acc H.
  - rewrite app_nil_r. reflexivity.
  - rewrite (dict_set_fresh k v acc (uniq_keys_middle _ _ _ _ H)).
    rewrite IH; rewrite <- app_assoc; [reflexivity|exact H].
Qed.

Lemma dict_of_pairs_uniq {V} (l : dict V) : uniq_keys (dict_of_pairs l).
Proof. apply dict_fold_uniq. exact I. Qed.

Lemma dict_of_pairs_elem {V} (l : dict V) kv : kv ∈ dict_of_pairs l -> kv ∈ l.
Proof.
  intros H. apply dict_fold_elem in H as [H|H]; [|exact H].
  apply elem_of_nil in H. contradiction.
Qed.

Lemma dict_of_pairs_id {V} (d : dict V) : uniq_keys d -> dict_of_pairs d = d.
Proof. intros H. apply (dict_fold_id d []). exact H. Qed.

(** ** The token file format *)

Lemma has_char_join c sep l :
  has_char c sep = false -> Forall (fun s => has_char c s = false) l ->
  has_char c (join sep l) = false.
Proof.
  intros Hsep. induction l as [|x l IH]; intros Hall; [reflexivity|].
  apply Forall_cons in Hall as [Hx Hl].
  destruct l as [|y l]; [exact Hx|].
  unfold join in *.
  change (String.concat sep (x :: y :: l)) with (x +:+ sep +:+ String.concat sep (y :: l)).
  rewrite !has_char_app, Hx, Hsep, (IH Hl). reflexivity.
Qed.

Lemma has_char_cons c x s : has_char c (String x s) = Ascii.eqb x c || has_char c s.
Proof. reflexivity. Qed.

Lemma has_char_single c x : x <> c -> has_char c (String x EmptyString) = false.
Proof.
  intros H. rewrite has_char_cons. apply Ascii.eqb_neq in H. rewrite H. reflexivity.
Qed.

Lemma record_line k v : join tab_s [k; v] = k +:+ String TAB v.
Proof. reflexivity. Qed.

Lemma record_line_split k v :
  has_char TAB k = false -> has_char TAB v = false ->
  split TAB (join tab_s [k; v]) = [k; v].
Proof.
  intros Hk Hv. rewrite record_line, (split_app_sep _ _ _ Hk), (split_no_sep _ _ Hv).
  reflexivity.
Qed.

Lemma record_line_free c k v :
  c <> TAB -> has_char c k = false -> has_char c v = false ->
  has_char c (join tab_s [k; v]) = false.
Proof.
  intros Hc Hk Hv. rewrite record_line, has_char_app, Hk, has_char_cons, Hv.
  rewrite orb_false_r. apply Ascii.eqb_neq. congruence.
Qed.

Lemma serialize_free c (d : dict string) :
  c <> TAB -> c <> LF ->
  Forall (fun kv => has_char c (fst kv) = false /\ has_char c (snd kv) = false) d ->
  has_char c (serialize_tokens d) = false.
Proof.
  intros Ht Hl Hall. unfold serialize_tokens. apply has_char_join.
  - apply has_char_single. congruence.
  - apply Forall_map. eapply Forall_impl; [exact Hall|].
    intros [k v] [Hk Hv]. apply record_line_free; assumption.
Qed.

(** Reading back what [serialize_tokens] wrote gives the same records. *)
Lemma token_records_serialize (d : dict string) :
  Forall clean_entry d -> token_records (serialize_tokens d) = d.
Proof.
  intros Hall. destruct d as [|e d]; [reflexivity|].
  unfold token_records, serialize_tokens.
  rewrite split_join.
  - remember (e :: d) as l eqn:El. clear El.
    induction l as [|[k v] l IH]; [reflexivity|].
    apply Forall_cons in Hall as [[Hk Hv] Hl].
    apply clean_spec in Hk as (Hk & _ & _). apply clean_spec in Hv as (Hv & _ & _).
    cbn [map omap list_omap fst snd] in *.
    rewrite (record_line_split k v Hk Hv).
    rewrite (IH Hl). reflexivity.
  - discriminate.
  - apply Forall_map. eapply Forall_impl; [exact Hall|].
    intros [k v] [Hk Hv].
    apply clean_spec in Hk as (_ & Hk & _). apply clean_spec in Hv as (_ & Hv & _).
    apply record_line_free; [discriminate|assumption|assumption].
Qed.

(** Every record read from a text without carriage returns is clean. *)
Lemma token_records_clean text :
  has_char CR text = false -> Forall clean_entry (token_records text).
Proof.
  intros Hcr. apply Forall_forall. intros [k v] Hin.
  unfold token_records in Hin. apply list_elem_of_omap in Hin as (line & Hline & Hsplit).
  assert (Hlf : has_char LF line = false).
  { pose proof (split_parts_no_sep LF text) as H.
    rewrite Forall_forall in H. apply H, Hline. }
  assert (Hcr' : has_char CR line = false).
  { pose proof (split_parts_keep CR LF text Hcr) as H.
    rewrite Forall_forall in H. apply H, Hline. }
  pose proof (split_parts_no_sep TAB line) as Ht.
  pose proof (split_parts_keep LF TAB line Hlf) as Hl.
  pose proof (split_parts_keep CR TAB line Hcr') as Hc.
  destruct (split TAB line) as [|a [|b [|? ?]]]; try discriminate.
  injection Hsplit as -> ->.
  apply Forall_cons in Ht as [Htk Ht]. apply Forall_cons in Ht as [Htv _].
  apply Forall_cons in Hl as [Hlk Hl]. apply Forall_cons in Hl as [Hlv _].
  apply Forall_cons in Hc as [Hck Hc]. apply Forall_cons in Hc as [Hcv _].
  split; apply clean_spec; simpl; auto.
Qed.

Lemma parse_tokens_uniq text : uniq_keys (parse_tokens text).
Proof. apply dict_of_pairs_uniq. Qed.

Lemma parse_tokens_clean raw :
  Forall clean_entry (parse_tokens (universal_newlines raw)).
Proof.
  apply Forall_forall. intros kv Hin. apply dict_of_pairs_elem in Hin.
  pose proof (token_records_clean _ (universal_newlines_no_CR raw)) as H.
  rewrite Forall_forall in H. apply H, Hin.
Qed.

Lemma dict_set_clean k v (d : dict string) :
  clean k = true -> clean v = true -> Forall clean_entry d ->
  Forall clean_entry (dict_set k v d).
Proof.
  intros Hk Hv Hd. apply Forall_forall. intros kv Hin.
  apply dict_set_elem in Hin as [->|Hin]; [split; assumption|].
  rewrite Forall_forall in Hd. apply Hd, Hin.
Qed.

(** Writing a dictionary of clean records and reading the file back gives
    the same dictionary. *)
Lemma parse_serialize (d : dict string) :
  uniq_keys d -> Forall clean_entry d ->
  parse_tokens (universal_newlines (serialize_tokens d)) = d.
Proof.
  intros Hu Hc. rewrite universal_newlines_id.
  - unfold parse_tokens. rewrite (token_records_serialize d Hc).
    apply dict_of_pairs_id, Hu.
  - apply serialize_free; [discriminate|discriminate|].
    eapply Forall_impl; [exact Hc|].
    intros [k v] [Hk Hv].
    apply clean_spec in Hk as (_ & _ & Hk). apply clean_spec in Hv as (_ & _ & Hv).
    split; assumption.
Qed.

Lemma serialize_single k v : serialize_tokens [(k, v)] = (k +:+ tab_s) +:+ v.
Proof.
  unfold serialize_tokens. cbn [map fst snd].
  change (join lf_s [join tab_s [k; v]]) with (join tab_s [k; v]).
  rewrite record_line, append_assoc. reflexivity.
Qed.

Lemma append_nil_r (a : string) : a +:+ EmptyString = a.
Proof. induction a as [|x a IH]; [reflexivity|]. rewrite append_cons, IH. reflexivity. Qed.

Lemma serialize_cons e e' (d : dict string) :
  serialize_tokens (e :: e' :: d)
  = (fst e +:+ tab_s +:+ snd e) +:+ lf_s +:+ serialize_tokens (e' :: d).
Proof. reflexivity. Qed.

(** The text written for a dictionary in which [u] was just set has the
    record of [u] in it. *)
Lemma serialize_holds_record u t (d : dict string) :
  holds_record (serialize_tokens (dict_set u t d)) u t.
Proof.
  induction d as [|[k v] d IH].
  - exists EmptyString, EmptyString. split; [|split; left; reflexivity].
    cbn [dict_set]. rewrite serialize_single, append_nil_l, append_nil_r, append_assoc.
    reflexivity.
  - cbn [dict_set]. destruct (String.eqb k u) eqn:E.
    + apply String.eqb_eq in E. subst k. destruct d as [|e' d].
      * exists EmptyString, EmptyString. split; [|split; left; reflexivity].
        rewrite serialize_single, append_nil_l, append_nil_r, append_assoc. reflexivity.
      * exists EmptyString, (lf_s +:+ serialize_tokens (e' :: d)).
        split; [|split; [left; reflexivity|right; eexists; reflexivity]].
        rewrite serialize_cons, append_nil_l. reflexivity.
    + destruct IH as (b' & a' & Htext & Hb & Ha).
      destruct (dict_set u t d) as [|e' d'] eqn:Hset; [destruct (dict_set_nonempty _ _ _ Hset)|].
      rewrite serialize_cons, Htext. cbn [fst snd].
      exists ((k +:+ tab_s +:+ v) +:+ lf_s +:+ b'), a'.
      split; [rewrite !append_assoc; reflexivity|]. split; [|exact Ha].
      right. destruct Hb as [->|[b ->]].
      * exists (k +:+ tab_s +:+ v). rewrite append_nil_r. reflexivity.
      * exists ((k +:+ tab_s +:+ v) +:+ lf_s +:+ b). rewrite !append_assoc. reflexivity.
Qed.

(** ** Token resolution *)

Section Resolution.

Variable server : http_request -> response.

Lemma getAccessToken_run self st :
  getAccessToken server self st
  = (token_answer (resp_json (server (oauth_request self))),
     log st [EvRequest (oauth_request self)]).
Proof.
  unfold getAccessToken, token_answer, http, bind, emit, ret, lift, raise, log.
  fold (oauth_request self). cbn [fst snd files heap next_loc trace].
  destruct (py_in "access_token" _) as [[|]|e]; try reflexivity.
  - destruct (py_getitem _ "access_token") as [tok|e]; [|reflexivity].
    destruct (not_none tok); reflexivity.
  - destruct (py_getitem _ "errors") as [errs|e]; reflexivity.
Qed.

(** What lines 187-191 raise is a KeyError or a TypeError: the handler of
    line 171 does not take it. *)
Lemma token_answer_unhandled j e c : token_answer j = Raise e -> is_instance e c = false.
Proof.
  unfold token_answer, py_in, py_getitem. intros H.
  destruct j as [| | | |l|d]; try (injection H as <-; destruct c; reflexivity).
  - destruct (match String.index 0 "access_token" s with Some _ => true | None => false end);
      injection H as <-; destruct c; reflexivity.
  - destruct (existsb _ l); injection H as <-; destruct c; reflexivity.
  - destruct (dict_mem "access_token" d).
    + destruct (dict_get "access_token" d) as [tok|];
        [destruct (not_none tok); discriminate|injection H as <-; destruct c; reflexivity].
    + destruct (dict_get "errors" d); injection H as <-; destruct c; reflexivity.
Qed.

(** Resolution when line 161 fails, in full. *)
Lemma assignAccessToken_run self path fromfile st :
  must_fetch st self path fromfile ->
  assignAccessToken server self path fromfile st =
    match token_answer (resp_json (server (oauth_request self))) with
    | Raise e => (Raise e, log st [EvOpenRead path; EvRequest (oauth_request self)])
    | Ret (PStr t) =>
        (Ret t,
         log (with_file st path (saved_text (files st !! path) (username self) t))
             [EvOpenRead path; EvRequest (oauth_request self); EvOpenWrite path;
              EvWrite path (saved_text (files st !! path) (username self) t)])
    | Ret _ =>
        (Raise TypeError,
         log (with_file st path EmptyString)
             [EvOpenRead path; EvRequest (oauth_request self); EvOpenWrite path])
    end.
Proof.
  intros Hmiss. unfold must_fetch, cached_token in Hmiss.
  unfold assignAccessToken, assignAccessToken_with, try_except, read_token_file.
  unfold bind at 1 2. unfold read_file at 1. unfold ret at 1.
  destruct (files st !! path) as [raw|] eqn:Hfile; cbn [fmap option_fmap option_map].
  - assert (Hgo : match fromfile, dict_get (username self) (parse_tokens (universal_newlines raw)) with
                  | true, Some _ => False | _, _ => True end).
    { destruct Hmiss as [->| ->]; [exact I|]. destruct fromfile; exact I. }
    destruct fromfile, (dict_get (username self) (parse_tokens (universal_newlines raw)));
      try contradiction;
      unfold bind; rewrite getAccessToken_run;
      (destruct (token_answer _) as [[| | |t| |]|e] eqn:Hans;
       unfold open_write, write_file, ret, raise, log, with_file, saved_text, class_or;
       cbn [files heap next_loc trace is_instance];
       rewrite ?(token_answer_unhandled _ _ IOError_class Hans);
       rewrite ?insert_insert_eq, <- ?app_assoc; reflexivity).
  - unfold raise at 1. unfold class_or. cbn [is_instance].
    unfold bind. rewrite getAccessToken_run.
    destruct (token_answer _) as [[| | |t| |]|e];
      unfold open_write, write_file, ret, raise, lift, log, with_file, saved_text, py_concat;
      cbn [files heap next_loc trace];
      rewrite ?insert_insert_eq, <- ?app_assoc; reflexivity.
Qed.

Lemma getAccessToken_granted self t st :
  grants server self t ->
  getAccessToken server self st = (Ret (PStr t), log st [EvRequest (oauth_request self)]).
Proof.
  intros (d & Hd & Ht). rewrite getAccessToken_run, Hd.
  unfold token_answer, py_in, py_getitem, dict_mem. rewrite Ht. reflexivity.
Qed.

(** A cached token is returned after reading the file and nothing else. *)
Lemma assignAccessToken_cached self path st c :
  cached_token st path (username self) = Some c ->
  assignAccessToken server self path true st = (Ret c, log st [EvOpenRead path]).
Proof.
  unfold cached_token, assignAccessToken, assignAccessToken_with, try_except,
    read_token_file, bind, read_file, ret, log.
  cbn [files heap next_loc trace].
  destruct (files st !! path) as [raw|]; [|discriminate].
  cbn [fmap option_fmap option_map]. intros ->. reflexivity.
Qed.

(** Without a usable cache entry the token is fetched, written and returned. *)
Lemma assignAccessToken_fetch self path fromfile st t :
  grants server self t ->
  fromfile = false \/ cached_token st path (username self) = None ->
  assignAccessToken server self path fromfile st =
    (Ret t,
     log (with_file st path (saved_text (files st !! path) (username self) t))
         [EvOpenRead path; EvRequest (oauth_request self);
          EvOpenWrite path;
          EvWrite path (saved_text (files st !! path) (username self) t)]).
Proof.
  intros (d & Hd & Ht) Hmiss. rewrite (assignAccessToken_run self path fromfile st Hmiss), Hd.
  unfold token_answer, py_in, py_getitem, dict_mem. rewrite Ht. reflexivity.
Qed.

End Resolution.

(** ** The token store *)

Lemma stored_tokens_wf old : uniq_keys (stored_tokens old) /\ Forall clean_entry (stored_tokens old).
Proof.
  destruct old as [raw|]; simpl.
  - split; [apply parse_tokens_uniq|apply parse_tokens_clean].
  - split; [exact I|constructor].
Qed.

Lemma saved_text_serialize old u t :
  saved_text old u t = serialize_tokens (dict_set u t (stored_tokens old)).
Proof.
  destruct old as [raw|]; [reflexivity|].
  unfold saved_text, stored_tokens. cbn [dict_set]. symmetry. apply serialize_single.
Qed.

(** What a later read of the saved file parses to. *)
Lemma saved_text_parse old u t :
  clean u = true -> clean t = true ->
  parse_tokens (universal_newlines (saved_text old u t)) = dict_set u t (stored_tokens old).
Proof.
  intros Hu Ht. rewrite saved_text_serialize.
  destruct (stored_tokens_wf old) as [Huq Hcl].
  apply parse_serialize.
  - apply dict_set_uniq, Huq.
  - apply dict_set_clean; assumption.
Qed.

Lemma cached_token_stored st path k :
  cached_token st path k = dict_get k (stored_tokens (files st !! path)).
Proof. unfold cached_token, stored_tokens. destruct (files st !! path); reflexivity. Qed.

Lemma cached_token_log st evs path k :
  cached_token (log st evs) path k = cached_token st path k.
Proof. reflexivity. Qed.

Lemma cached_token_with_file st path text k :
  cached_token (with_file st path text) path k =
  dict_get k (parse_tokens (universal_newlines text)).
Proof.
  unfold cached_token, with_file. cbn [files]. rewrite lookup_insert_eq. reflexivity.
Qed.

Lemma empty_disk_miss path user : cached_token (initial_state ∅) path user = None.
Proof. unfold cached_token, initial_state. cbn [files]. rewrite lookup_empty. reflexivity. Qed.

Lemma token_server_grants self t : grants (token_server (PStr t)) self t.
Proof. exists [("access_token", PStr t)]. split; reflexivity. Qed.

(** ** Claims about token resolution and the token store *)

(** C1.  Token resolution at construction.  A non-empty explicit token is
    used as it is: the state is untouched, so no file is opened and nothing
    is sent.  Without one, a user with an entry in the token file gets the
    cached token after the file was read and nothing else.  Without either,
    the token the endpoint grants is requested, written to the token file
    and only then returned: the text written has the record of the user
    with that token as one of its records, and when neither name nor token
    has a tab, line feed or carriage return, the file then gives that token
    for the user. *)
Theorem token_resolution_precedence
    (server : http_request -> response) (user pw tok path : string) (st : state) :
  (tok <> EmptyString ->
     BWUser_init server user pw tok path st = (Ret (new_user user pw tok), st)) /\
  (tok = EmptyString -> forall c, cached_token st path user = Some c ->
     BWUser_init server user pw tok path st
       = (Ret (new_user user pw c), log st [EvOpenRead path])) /\
  (tok = EmptyString -> cached_token st path user = None ->
     forall t, grants server (new_user user pw EmptyString) t ->
     let text := saved_text (files st !! path) user t in
     BWUser_init server user pw tok path st
       = (Ret (new_user user pw t),
          log (with_file st path text)
              [EvOpenRead path; EvRequest (oauth_request (new_user user pw EmptyString));
               EvOpenWrite path; EvWrite path text]) /\
     holds_record text user t /\
     (clean user = true -> clean t = true ->
        cached_token (with_file st path text) path user = Some t)).
Proof.
  unfold BWUser_init. fold (new_user user pw EmptyString). split; [|split].
  - intros Hne. apply String.eqb_neq in Hne. rewrite Hne. reflexivity.
  - intros -> c Hc. cbn [String.eqb negb]. unfold bind.
    rewrite (assignAccessToken_cached server (new_user user pw EmptyString) path st c Hc).
    reflexivity.
  - intros -> Hmiss t Hg. cbv zeta. split; [|split].
    + cbn [String.eqb negb]. unfold bind.
      rewrite (assignAccessToken_fetch server (new_user user pw EmptyString) path true st t
                 Hg (or_intror Hmiss)).
      reflexivity.
    + rewrite saved_text_serialize. apply serialize_holds_record.
    + intros Hu Ht.
      rewrite cached_token_with_file, saved_text_parse by assumption.
      apply dict_get_set_eq.
Qed.

Lemma token_resolution_precedence_witness :
  BWUser_init (token_server (PStr "fresh")) "alice" "pw" "given" "tokens.txt"
              (initial_state alice_disk)
    = (Ret (new_user "alice" "pw" "given"), initial_state alice_disk) /\
  BWUser_init (token_server (PStr "fresh")) "alice" "pw" "" "tokens.txt"
              (initial_state alice_disk)
    = (Ret (new_user "alice" "pw" "tok123"),
       log (initial_state alice_disk) [EvOpenRead "tokens.txt"]) /\
  fst (BWUser_init (token_server (PStr "fresh")) "bob" "pw" "" "tokens.txt"
                   (initial_state alice_disk))
    = Ret (new_user "bob" "pw" "fresh") /\
  files (snd (BWUser_init (token_server (PStr "fresh")) "bob" "pw" "" "tokens.txt"
                          (initial_state alice_disk))) !! "tokens.txt"
    = Some ("alice" +:+ tab_s +:+ "tok123" +:+ lf_s +:+ "bob" +:+ tab_s +:+ "fresh") /\
  cached_token (snd (BWUser_init (token_server (PStr "fresh")) "bob" "pw" "" "tokens.txt"
                                 (initial_state alice_disk))) "tokens.txt" "bob"
    = Some "fresh".
Proof.
  split; [|split].
  - apply (proj1 (token_resolution_precedence _ "alice" "pw" "given" "tokens.txt" _)).
    discriminate.
  - apply (proj1 (proj2 (token_resolution_precedence _ "alice" "pw" "" "tokens.txt" _)));
      reflexivity.
  - destruct (proj2 (proj2 (token_resolution_precedence
               (token_server (PStr "fresh")) "bob" "pw" "" "tokens.txt"
               (initial_state alice_disk))) eq_refl eq_refl "fresh"
               (token_server_grants _ _)) as (Hrun & _ & Hread).
    rewrite Hrun. cbn [fst snd]. split; [reflexivity|]. split.
    + cbn [log with_file files]. rewrite lookup_insert_eq. vm_compute. reflexivity.
    + rewrite cached_token_log. apply Hread; reflexivity.
Defined.



(** C7 as stated fails: a token with a tab in it is written as a line of
    three fields, which the next read drops, so the user who has just been
    given that token finds no entry. *)
Lemma round_trip_counterexample :
  let first := assignAccessToken (token_server (PStr tabbed_token)) (new_user "alice" "" "")
                                 "tokens.txt" true (initial_state ∅) in
  fst first = Ret tabbed_token /\
  cached_token (snd first) "tokens.txt" "alice" = None.
Proof. vm_compute. split; reflexivity. Qed.

(** C7, amended.  For a user name and a token without tab, line feed and
    carriage return: once the token has been saved, the file holds it for
    that user, the next resolution for the same user returns it after
    reading the file and nothing else, and every other user finds what the
    file held for them before the save, so a user never saved stays a cache
    miss. *)
Theorem token_round_trip
    (server server' : http_request -> response) (self : BWUser) (path : string)
    (fromfile : bool) (st : state) (t : string) :
  clean (username self) = true -> clean t = true ->
  grants server self t ->
  fromfile = false \/ cached_token st path (username self) = None ->
  let st1 := snd (assignAccessToken server self path fromfile st) in
  fst (assignAccessToken server self path fromfile st) = Ret t /\
  cached_token st1 path (username self) = Some t /\
  assignAccessToken server' self path true st1 = (Ret t, log st1 [EvOpenRead path]) /\
  (forall other, other <> username self ->
     cached_token st1 path other = cached_token st path other).
Proof.
  intros Hu Ht Hg Hmiss st1. subst st1.
  rewrite (assignAccessToken_fetch server self path fromfile st t Hg Hmiss).
  cbn [fst snd].
  assert (Hread : forall k,
    cached_token (log (with_file st path (saved_text (files st !! path) (username self) t))
                      [EvOpenRead path; EvRequest (oauth_request self); EvOpenWrite path;
                       EvWrite path (saved_text (files st !! path) (username self) t)])
                 path k
    = dict_get k (dict_set (username self) t (stored_tokens (files st !! path)))).
  { intros k. rewrite cached_token_log, cached_token_with_file, saved_text_parse by assumption.
    reflexivity. }
  split; [reflexivity|]. split; [|split].
  - rewrite Hread. apply dict_get_set_eq.
  - apply assignAccessToken_cached. rewrite Hread. apply dict_get_set_eq.
  - intros other Hother. rewrite Hread, cached_token_stored.
    apply dict_get_set_ne. congruence.
Qed.

Lemma token_round_trip_witness :
  let first := assignAccessToken (token_server (PStr "tok123")) (new_user "alice" "" "")
                                 "tokens.txt" true (initial_state ∅) in
  fst first = Ret "tok123" /\
  cached_token (snd first) "tokens.txt" "alice" = Some "tok123" /\
  cached_token (snd first) "tokens.txt" "bob" = None.
Proof.
  intros first.
  destruct (token_round_trip (token_server (PStr "tok123")) (token_server PNone)
              (new_user "alice" "" "") "tokens.txt" true (initial_state ∅) "tok123"
              eq_refl eq_refl (token_server_grants _ _)
              (or_intror (empty_disk_miss _ _)))
    as (Hret & Hsame & _ & Hother).
  split; [exact Hret|]. split; [exact Hsame|].
  subst first. etransitivity; [apply (Hother "bob"); discriminate|].
  apply empty_disk_miss.
Defined.

(** ** The dispatcher *)

Section Dispatcher.

Variable server : http_request -> response.

Lemma injected_lookup st tok l :
  heap (injected st tok l) !!! l = inject_token tok (heap st !!! l).
Proof.
  unfold injected, inject_token. destruct (negb (String.eqb tok "")); [|reflexivity].
  unfold with_dict. cbn [heap]. apply lookup_total_insert_eq.
Qed.

Lemma injected_lookup_ne st tok l l' :
  l <> l' -> heap (injected st tok l) !!! l' = heap st !!! l'.
Proof.
  intros Hne. unfold injected. destruct (negb (String.eqb tok "")); [|reflexivity].
  unfold with_dict. cbn [heap]. apply lookup_total_insert_ne, Hne.
Qed.

(** One call of the dispatcher, in full. *)
Lemma bare_request_run self v root suffix tok params data st :
  let p := default bare_request_params_default params in
  let d := default (DataRef bare_request_data_default) data in
  let st1 := injected st tok p in
  let req := built_request v (root +:+ suffix) (heap st1 !!! p) (body_of st1 d) in
  let j := resp_json (server req) in
  bare_request server self v root suffix tok params data st =
    match report_decision (console_report self) j with
    | Raise e => (Raise e, log st1 [EvSleep; EvRequest req])
    | Ret b =>
        (Ret j, log st1 ([EvSleep; EvRequest req]
                         ++ (if b then [EvPrint j] else [])
                         ++ [EvPrintUrl (resp_url (server req))]))
    end.
Proof.
  intros p d st1 req j. subst j req st1.
  unfold bare_request. fold p d.
  unfold injected, built_request, report_decision, body_of, log, with_dict.
  unfold bind, emit, ret, lift, deref, store, http, data_value.
  destruct (negb (String.eqb tok "")); destruct d as [l|val];
    cbn [files heap next_loc trace fst snd];
    unfold bind, emit, ret, deref; cbn [files heap next_loc trace fst snd];
    match goal with |- context [is_empty_dict ?b] => destruct (is_empty_dict b) end;
    cbn [files heap next_loc trace fst snd];
    match goal with |- context [py_in "errors" ?b] => destruct (py_in "errors" b) as [[|]|e] end;
    cbn [files heap next_loc trace fst snd]; rewrite <- ?app_assoc; try reflexivity;
    match goal with |- context [py_getitem ?b "errors"] =>
      destruct (py_getitem b "errors") as [errs|e'] end;
    cbn [files heap next_loc trace fst snd]; rewrite <- ?app_assoc; try reflexivity;
    destruct (truthy errs); cbn [files heap next_loc trace fst snd];
    rewrite <- ?app_assoc; try reflexivity;
    destruct (console_report self) as [[|]|]; cbn [files heap next_loc trace fst snd];
    rewrite <- ?app_assoc; reflexivity.
Qed.

Lemma requests_of_app a b : requests_of (a ++ b) = requests_of a ++ requests_of b.
Proof. unfold requests_of. apply omap_app. Qed.

(** The request a call sends: exactly one, whatever comes back. *)
Lemma bare_request_sends self v root suffix tok params data st :
  let p := default bare_request_params_default params in
  let d := default (DataRef bare_request_data_default) data in
  let st1 := injected st tok p in
  requests_of (trace (snd (bare_request server self v root suffix tok params data st)))
  = requests_of (trace st)
    ++ [built_request v (root +:+ suffix) (inject_token tok (heap st !!! p)) (body_of st1 d)].
Proof.
  intros p d st1. rewrite bare_request_run. fold p d st1.
  rewrite <- (injected_lookup st tok p). fold st1.
  assert (Ht : trace st1 = trace st).
  { subst st1. unfold injected, with_dict. destruct (negb (String.eqb tok "")); reflexivity. }
  destruct (report_decision _ _) as [b|e]; cbn [snd log trace];
    rewrite !requests_of_app, Ht; [destruct b|]; reflexivity.
Qed.

(** The shared dictionaries a call leaves: the injection and nothing else,
    whatever comes back. *)
Lemma bare_request_heap self v root suffix tok params data st :
  heap (snd (bare_request server self v root suffix tok params data st))
  = heap (injected st tok (default bare_request_params_default params)).
Proof.
  rewrite bare_request_run. destruct (report_decision _ _); reflexivity.
Qed.

End Dispatcher.





(** ** Bodies that report errors *)

Section ErrorBodies.

Variable server : http_request -> response.

Lemma report_decision_errors cr d errs :
  dict_get "errors" d = Some errs -> truthy errs = true ->
  report_decision cr (PDict d) =
    match cr with Some b => Ret b | None => Raise (AttributeError "console_report") end.
Proof.
  intros Hd Ht. unfold report_decision, py_in, py_getitem, dict_mem.
  rewrite Hd, Ht. reflexivity.
Qed.

Lemma report_decision_quiet cr d :
  match dict_get "errors" d with Some errs => truthy errs = false | None => True end ->
  report_decision cr (PDict d) = Ret false.
Proof.
  unfold report_decision, py_in, py_getitem, dict_mem.
  destruct (dict_get "errors" d) as [errs|]; [intros ->|]; reflexivity.
Qed.

(** On an instance with [console_report] assigned, a body with non-empty
    errors comes back as the result; it is printed when the flag is on and
    not printed when it is off. *)
Lemma error_body_returned self v address params data st b d errs :
  console_report self = Some b ->
  let p := default request_params_default params in
  let st1 := injected st (token self) p in
  let req := built_request v (apiurl self +:+ address) (heap st1 !!! p)
                           (body_of st1 (default (DataRef request_data_default) data)) in
  resp_json (server req) = PDict d ->
  dict_get "errors" d = Some errs -> truthy errs = true ->
  request server self v address params data st =
    (Ret (PDict d),
     log st1 ([EvSleep; EvRequest req] ++ (if b then [EvPrint (PDict d)] else [])
              ++ [EvPrintUrl (resp_url (server req))])).
Proof.
  intros Hcr p st1 req Hj Hd Ht. subst req st1 p.
  unfold request. rewrite bare_request_run. cbn [default from_option id] in *.
  rewrite Hj, (report_decision_errors _ _ _ Hd Ht), Hcr. reflexivity.
Qed.

(** On an instance without the attribute the same body never comes back. *)
Lemma error_body_unreported self v address params data st d errs :
  console_report self = None ->
  let p := default request_params_default params in
  let st1 := injected st (token self) p in
  let req := built_request v (apiurl self +:+ address) (heap st1 !!! p)
                           (body_of st1 (default (DataRef request_data_default) data)) in
  resp_json (server req) = PDict d ->
  dict_get "errors" d = Some errs -> truthy errs = true ->
  request server self v address params data st =
    (Raise (AttributeError "console_report"), log st1 [EvSleep; EvRequest req]).
Proof.
  intros Hcr p st1 req Hj Hd Ht. subst req st1 p.
  unfold request. rewrite bare_request_run. cbn [default from_option id] in *.
  rewrite Hj, (report_decision_errors _ _ _ Hd Ht), Hcr. reflexivity.
Qed.

(** A body without errors comes back on every instance. *)
Lemma quiet_body_returned self v address params data st d :
  let p := default request_params_default params in
  let st1 := injected st (token self) p in
  let req := built_request v (apiurl self +:+ address) (heap st1 !!! p)
                           (body_of st1 (default (DataRef request_data_default) data)) in
  resp_json (server req) = PDict d ->
  match dict_get "errors" d with Some errs => truthy errs = false | None => True end ->
  request server self v address params data st =
    (Ret (PDict d),
     log st1 [EvSleep; EvRequest req; EvPrintUrl (resp_url (server req))]).
Proof.
  intros p st1 req Hj Hd. subst req st1 p.
  unfold request. rewrite bare_request_run. cbn [default from_option id] in *.
  rewrite Hj, (report_decision_quiet _ _ Hd). reflexivity.
Qed.

End ErrorBodies.

(** C3.  The dispatcher raises on a body with non-empty errors when the
    instance is a plain [BWUser]: [console_report] is read on line 136 and
    only [BWProject.__init__] assigns it.  The request has been sent, the
    body is not returned and the URL is not printed. *)
Theorem error_body_raises_on_plain_user :
  get_self (const_server error_body) plain_user (initial_state ∅)
  = (Raise (AttributeError "console_report"),
     log (with_dict (initial_state ∅) request_params_default [("access_token", PStr "tok123")])
         [EvSleep;
          EvRequest (mk_request GET "https://newapi.brandwatch.com/me"
                                [("access_token", PStr "tok123")] None [])]).
Proof. vm_compute. reflexivity. Qed.

(** ** The validators *)

Section Validators.

Variable server : http_request -> response.

(** Without [query] a validator raises at once: the state is untouched, so
    nothing was sent. *)
Lemma validate_requires_query self address kwargs st :
  dict_mem "query" kwargs = false ->
  validate server self address kwargs st
  = (Raise (KeyError [PStr "Must pass: query = 'search terms'"]), st).
Proof. intros H. unfold validate. rewrite H. reflexivity. Qed.

(** The keyword arguments as lines 67-68 leave them. *)
Lemma validate_run self address kwargs st :
  dict_mem "query" kwargs = true ->
  let sent := if dict_mem "language" kwargs then kwargs
              else dict_set "language" (PList [PStr "en"]) kwargs in
  let st0 := mk_state (files st) (<[next_loc st := sent]> (heap st)) (S (next_loc st))
                      (trace st) in
  validate server self address kwargs st =
    match bare_request server self GET (apiurl self) address (token self)
                       (Some (next_loc st)) (Some (DataRef request_data_default)) st0 with
    | (Ret j, st2) =>
        match py_getitem j "errors" with
        | Ret errs =>
            if truthy errs then (Raise (KeyError [PStr "Search string error: "; errs]), st2)
            else (Ret tt, st2)
        | Raise e => (Raise e, st2)
        end
    | (Raise e, st2) => (Raise e, st2)
    end.
Proof.
  intros Hq sent st0. unfold validate. rewrite Hq. cbn [negb].
  unfold bind, alloc, request, lift, raise, ret. cbn [default from_option id].
  subst st0 sent. destruct (dict_mem "language" kwargs); cbn [negb];
    destruct (bare_request _ _ _ _ _ _ _ _ _) as [[j|e] st2]; try reflexivity;
    destruct (py_getitem j "errors") as [errs|e]; try reflexivity;
    destruct (truthy errs); reflexivity.
Qed.

(** With [query] given, one request is sent; its parameters are the keyword
    arguments, with [language] set to [["en"]] unless the caller gave one,
    and the token.  If the answer is an object with an [errors] field, a
    non-empty value of it gives the search-string error with that value on
    an instance with [console_report] assigned, and AttributeError on one
    without; an empty value gives a normal return. *)
Lemma validate_outcome self address kwargs st :
  dict_mem "query" kwargs = true ->
  let sent := if dict_mem "language" kwargs then kwargs
              else dict_set "language" (PList [PStr "en"]) kwargs in
  exists req,
    requests_of (trace (snd (validate server self address kwargs st)))
      = requests_of (trace st) ++ [req] /\
    req_verb req = GET /\
    req_url req = apiurl self +:+ address /\
    req_params req = inject_token (token self) sent /\
    forall d errs,
      resp_json (server req) = PDict d -> dict_get "errors" d = Some errs ->
      fst (validate server self address kwargs st) =
        if truthy errs then
          match console_report self with
          | Some _ => Raise (KeyError [PStr "Search string error: "; errs])
          | None => Raise (AttributeError "console_report")
          end
        else Ret tt.
Proof.
  intros Hq sent. rewrite (validate_run self address kwargs st Hq). fold sent.
  set (st0 := mk_state _ _ _ _).
  assert (Hsent : heap st0 !!! next_loc st = sent).
  { subst st0. cbn [heap]. apply lookup_total_insert_eq. }
  pose proof (bare_request_sends server self GET (apiurl self) address (token self)
                (Some (next_loc st)) (Some (DataRef request_data_default)) st0) as Hs.
  pose proof (bare_request_run server self GET (apiurl self) address (token self)
                (Some (next_loc st)) (Some (DataRef request_data_default)) st0) as Hr.
  cbn [default from_option id] in Hs, Hr.
  rewrite Hsent in Hs. rewrite injected_lookup, Hsent in Hr.
  set (req := built_request GET (apiurl self +:+ address) (inject_token (token self) sent)
                (body_of (injected st0 (token self) (next_loc st))
                         (DataRef request_data_default))) in *.
  exists req.
  assert (Htr : trace st0 = trace st) by reflexivity. rewrite Htr in Hs.
  split; [|split; [|split; [|split]]].
  - destruct (bare_request server self GET (apiurl self) address (token self)
                (Some (next_loc st)) (Some (DataRef request_data_default)) st0)
      as [[j|e] st2]; cbn [snd] in Hs; [|exact Hs].
    destruct (py_getitem j "errors") as [errs|e]; [|exact Hs].
    destruct (truthy errs); exact Hs.
  - subst req. unfold built_request. destruct (is_empty_dict _); reflexivity.
  - subst req. unfold built_request. destruct (is_empty_dict _); reflexivity.
  - subst req. unfold built_request. destruct (is_empty_dict _); reflexivity.
  - intros d errs Hj Hd. rewrite Hr, Hj.
    destruct (truthy errs) eqn:Ht.
    + rewrite (report_decision_errors _ _ _ Hd Ht).
      destruct (console_report self); [|reflexivity].
      cbn [py_getitem]. rewrite Hd, Ht. reflexivity.
    + rewrite report_decision_quiet by (rewrite Hd; exact Ht).
      cbn [py_getitem]. rewrite Hd, Ht. reflexivity.
Qed.

End Validators.

(** C5.  On a plain [BWUser], the class that defines the validators, a
    response with non-empty errors does not give the search-string error:
    the dispatcher raises AttributeError first (line 136), so line 72 and
    line 92 are never reached.  The same call on an instance with
    [console_report] assigned raises the search-string error with the
    server's errors. *)
Theorem validators_on_plain_user :
  fst (validate_query_search (const_server error_body) plain_user query_kwargs
                             (initial_state ∅))
    = Raise (AttributeError "console_report") /\
  fst (validate_rule_search (const_server error_body) plain_user query_kwargs
                            (initial_state ∅))
    = Raise (AttributeError "console_report") /\
  fst (validate_query_search (const_server error_body) project_user query_kwargs
                             (initial_state ∅))
    = Raise (KeyError [PStr "Search string error: "; PList [PStr "bad query"]]).
Proof. vm_compute. repeat split; reflexivity. Qed.

(** ** The token endpoint *)

Section TokenEndpoint.

Variable server : http_request -> response.

(** No [access_token] in the answer: the error carries the server's
    [errors]. *)
Lemma getAccessToken_refused self st d errs :
  resp_json (server (oauth_request self)) = PDict d ->
  dict_get "access_token" d = None ->
  dict_get "errors" d = Some errs ->
  getAccessToken server self st
  = (Raise (KeyError [PStr "Cannot get access token"; errs]),
     log st [EvRequest (oauth_request self)]).
Proof.
  intros Hj Ha He.
  unfold getAccessToken, http, bind, emit, ret, lift, raise, log. fold (oauth_request self).
  cbn [fst snd files heap next_loc trace].
  rewrite Hj. cbn [py_in py_getitem]. unfold dict_mem. rewrite Ha, He. reflexivity.
Qed.

(** An [access_token] that is not null is returned as it is. *)
Lemma getAccessToken_present self st d tok :
  resp_json (server (oauth_request self)) = PDict d ->
  dict_get "access_token" d = Some tok ->
  not_none tok = true ->
  getAccessToken server self st = (Ret tok, log st [EvRequest (oauth_request self)]).
Proof.
  intros Hj Ha Hn.
  unfold getAccessToken, http, bind, emit, ret, lift, log. fold (oauth_request self).
  cbn [fst snd files heap next_loc trace].
  rewrite Hj. cbn [py_in py_getitem]. unfold dict_mem. rewrite Ha, Hn. reflexivity.
Qed.

(** A null [access_token] falls through both tests of lines 187-188: the
    function ends without [return] and without [raise]. *)
Lemma getAccessToken_null self st d :
  resp_json (server (oauth_request self)) = PDict d ->
  dict_get "access_token" d = Some PNone ->
  getAccessToken server self st = (Ret PNone, log st [EvRequest (oauth_request self)]).
Proof.
  intros Hj Ha.
  unfold getAccessToken, http, bind, emit, ret, lift, log. fold (oauth_request self).
  cbn [fst snd files heap next_loc trace].
  rewrite Hj. cbn [py_in py_getitem]. unfold dict_mem. rewrite Ha. reflexivity.
Qed.

End TokenEndpoint.

(** C2.  For the answer [{"access_token": null}] the fetch does not fail:
    it returns [None].  The caller then fails with TypeError while building
    the line to write, after the token file has been opened for writing,
    which leaves the file empty. *)
Theorem null_access_token_is_returned :
  fst (getAccessToken (token_server PNone) plain_user (initial_state ∅)) = Ret PNone /\
  fst (BWUser_init (token_server PNone) "bob" "pw" "" "tokens.txt"
                    (initial_state alice_disk)) = Raise TypeError /\
  files (snd (BWUser_init (token_server PNone) "bob" "pw" "" "tokens.txt"
                          (initial_state alice_disk))) !! "tokens.txt" = Some EmptyString.
Proof. vm_compute. repeat split; reflexivity. Qed.

(** ** Listing projects *)

(** X21.  Whatever body the dispatcher returns for the project listing:
    when it is an object with a [results] key, the value of that key is
    the result; when it is an object without that key, or any other body in
    which ["results"] is not found, the body itself is the result. *)
Theorem list_projects_unwraps
    (server : http_request -> response) (self : BWUser) (st st' : state) (j : pyval) :
  request server self GET "projects" None None st = (Ret j, st') ->
  (forall d v, j = PDict d -> dict_get "results" d = Some v ->
     get_projects server self st = (Ret v, st')) /\
  (forall d, j = PDict d -> dict_get "results" d = None ->
     get_projects server self st = (Ret j, st')) /\
  (py_in "results" j = Ret false -> get_projects server self st = (Ret j, st')).
Proof.
  intros Hreq. unfold get_projects, bind. rewrite Hreq. unfold lift, ret.
  split; [|split].
  - intros d v -> Hv. cbn [py_in py_getitem]. unfold dict_mem. rewrite Hv. reflexivity.
  - intros d -> Hv. cbn [py_in]. unfold dict_mem. rewrite Hv. reflexivity.
  - intros ->. reflexivity.
Qed.

Lemma list_projects_unwraps_witness :
  fst (get_projects (const_server acme_body) project_user (initial_state ∅))
    = Ret (PList [PDict [("name", PStr "Beta"); ("id", PInt 7)];
                  PDict [("name", PStr "Acme"); ("id", PInt 42)];
                  PDict [("name", PStr "Acme"); ("id", PInt 99)]]) /\
  fst (get_projects (const_server error_body) project_user (initial_state ∅))
    = Ret error_body.
Proof.
  split.
  - rewrite (proj1 (list_projects_unwraps (const_server acme_body) project_user
                      (initial_state ∅)
                      (snd (request (const_server acme_body) project_user GET "projects"
                                    None None (initial_state ∅)))
                      acme_body ltac:(vm_compute; reflexivity))
                   _ _ eq_refl eq_refl).
    reflexivity.
  - rewrite (proj1 (proj2 (list_projects_unwraps (const_server error_body) project_user
                      (initial_state ∅)
                      (snd (request (const_server error_body) project_user GET "projects"
                                    None None (initial_state ∅)))
                      error_body ltac:(vm_compute; reflexivity)))
                   _ eq_refl eq_refl).
    reflexivity.
Defined.

(** C9.  On a plain [BWUser], the class that defines the listing, a body
    with non-empty errors and no [results] is not returned: the dispatcher
    raises AttributeError on line 136 before line 48 is reached.  On an
    instance with [console_report] the same body is returned unchanged. *)
Theorem list_projects_on_plain_user :
  fst (get_projects (const_server error_body) plain_user (initial_state ∅))
    = Raise (AttributeError "console_report") /\
  fst (get_projects (const_server error_body) project_user (initial_state ∅))
    = Ret error_body.
Proof. vm_compute. split; reflexivity. Qed.

(** ** Default arguments *)

Lemma inject_token_gets tok d :
  tok <> EmptyString -> dict_get "access_token" (inject_token tok d) = Some (PStr tok).
Proof.
  intros Hne. unfold inject_token. apply String.eqb_neq in Hne. rewrite Hne.
  apply dict_get_set_eq.
Qed.

Lemma request_heap server self v address params data st :
  heap (snd (request server self v address params data st))
  = heap (injected st (token self) (default request_params_default params)).
Proof. unfold request. rewrite bare_request_heap. reflexivity. Qed.

Lemma request_sends server self v address params data st :
  exists req,
    requests_of (trace (snd (request server self v address params data st)))
      = requests_of (trace st) ++ [req] /\
    req_verb req = v /\
    req_url req = apiurl self +:+ address /\
    req_params req
      = inject_token (token self) (heap st !!! default request_params_default params).
Proof.
  unfold request. eexists. split; [apply bare_request_sends|].
  cbn [default from_option id]. unfold built_request.
  destruct (is_empty_dict _); repeat split; reflexivity.
Qed.

(** C10.  The dispatcher writes the token into the mapping it was given,
    in place, and a call without [params] is given the one dictionary
    created with the function.  So of two calls in a row without [params],
    the second starts from the mapping as the first left it: its request
    carries the token of the first call unless it injects its own, and the
    mapping is not empty. *)
Theorem default_params_are_shared
    (server : http_request -> response) (s1 s2 : BWUser) (v1 v2 : verb)
    (a1 a2 : string) (st : state) :
  let st1 := snd (request server s1 v1 a1 None None st) in
  let st2 := snd (request server s2 v2 a2 None None st1) in
  let before := heap st !!! request_params_default in
  (forall l st0,
     heap (snd (request server s1 v1 a1 (Some l) None st0)) !!! l
     = inject_token (token s1) (heap st0 !!! l)) /\
  heap st1 !!! request_params_default = inject_token (token s1) before /\
  exists req1 req2,
    requests_of (trace st2) = requests_of (trace st) ++ [req1; req2] /\
    req_params req1 = inject_token (token s1) before /\
    req_params req2 = inject_token (token s2) (inject_token (token s1) before) /\
    (token s1 <> EmptyString -> req_params req2 <> []) /\
    (token s1 <> EmptyString -> token s2 = EmptyString ->
       dict_get "access_token" (req_params req2) = Some (PStr (token s1))).
Proof.
  intros st1 st2 before.
  assert (H1 : heap st1 !!! request_params_default = inject_token (token s1) before).
  { subst st1. rewrite request_heap. apply injected_lookup. }
  split; [|split; [exact H1|]].
  - intros l st0. rewrite request_heap. apply injected_lookup.
  - destruct (request_sends server s1 v1 a1 None None st) as (req1 & Hs1 & _ & _ & Hp1).
    destruct (request_sends server s2 v2 a2 None None st1) as (req2 & Hs2 & _ & _ & Hp2).
    fold st1 in Hs1. fold st2 in Hs2. cbn [default from_option id] in Hp1, Hp2.
    fold before in Hp1. rewrite H1 in Hp2.
    exists req1, req2. split; [|split; [exact Hp1|split; [exact Hp2|split]]].
    + rewrite Hs2, Hs1, <- app_assoc. reflexivity.
    + intros Hne. rewrite Hp2. unfold inject_token at 1.
      destruct (negb (String.eqb (token s2) "")); [apply dict_set_nonempty|].
      unfold inject_token. apply String.eqb_neq in Hne. rewrite Hne.
      apply dict_set_nonempty.
    + intros Hne He. rewrite Hp2. unfold inject_token at 1. rewrite He.
      apply inject_token_gets, Hne.
Qed.

Lemma default_params_are_shared_witness :
  exists req1 req2,
    requests_of (trace (snd (request (const_server PNone) empty_token_user GET "me" None None
                    (snd (request (const_server PNone) project_user GET "projects" None None
                                  (initial_state ∅))))))
      = [req1; req2] /\
    dict_get "access_token" (req_params req2) = Some (PStr "tok123").
Proof.
  destruct (default_params_are_shared (const_server PNone) project_user empty_token_user
              GET GET "projects" "me" (initial_state ∅))
    as (_ & _ & req1 & req2 & Hs & _ & _ & _ & Hkept).
  exists req1, req2. split; [exact Hs|].
  apply Hkept; [discriminate|reflexivity].
Defined.

(** ** Project resolution *)

Section Resolve.

Variable server : http_request -> response.
Variable repr_container : pyval -> string.




End Resolve.



(** * Further properties of the code *)

(** ** The token endpoint *)

(** X1.  Whatever the token endpoint answers, fetching a token sends one
    GET to the API root followed by the token path, with the user name, the
    password, the grant type [api-password] and the fixed client id as
    query parameters, and changes nothing else: no file, no shared
    dictionary, no other output. *)
Theorem getAccessToken_effects
    (server : http_request -> response) (self : BWUser) (st : state) :
  let st' := snd (getAccessToken server self st) in
  files st' = files st /\ heap st' = heap st /\ next_loc st' = next_loc st /\
  trace st' = trace st
    ++ [EvRequest (mk_request GET (apiurl self +:+ oauthpath self)
                              [("username", PStr (username self));
                               ("password", PStr (password self));
                               ("grant_type", PStr "api-password");
                               ("client_id", PStr "brandwatch-api-client")]
                              None [])].
Proof. rewrite getAccessToken_run. repeat split; reflexivity. Qed.

(** X2.  When the answer is an object without [access_token], the fetch
    raises: with the server's [errors] in the error when the answer has
    that field, and with the plain missing-key error for ["errors"] when it
    has not. *)
Theorem getAccessToken_without_token
    (server : http_request -> response) (self : BWUser) (st : state)
    (d : dict pyval) :
  resp_json (server (oauth_request self)) = PDict d ->
  dict_get "access_token" d = None ->
  fst (getAccessToken server self st) =
    match dict_get "errors" d with
    | Some errs => Raise (KeyError [PStr "Cannot get access token"; errs])
    | None => Raise (KeyError [PStr "errors"])
    end.
Proof.
  intros Hj Ha. rewrite getAccessToken_run, Hj. cbn [fst].
  unfold token_answer, py_in, py_getitem, dict_mem. rewrite Ha.
  destruct (dict_get "errors" d); reflexivity.
Qed.

Lemma getAccessToken_without_token_witness :
  fst (getAccessToken (const_server (PDict [("errors", PStr "denied")])) plain_user
                      (initial_state ∅))
    = Raise (KeyError [PStr "Cannot get access token"; PStr "denied"]) /\
  fst (getAccessToken (const_server (PDict [])) plain_user (initial_state ∅))
    = Raise (KeyError [PStr "errors"]).
Proof.
  split.
  - apply (getAccessToken_without_token (const_server (PDict [("errors", PStr "denied")]))
             plain_user (initial_state ∅) [("errors", PStr "denied")] eq_refl eq_refl).
  - apply (getAccessToken_without_token (const_server (PDict [])) plain_user
             (initial_state ∅) [] eq_refl eq_refl).
Defined.

(** ** Resolution when the fetch does not give a string *)

(** X3.  When the token endpoint answers and lines 187-191 raise on the
    answer (the KeyError for an answer without [access_token], a TypeError
    for an answer that is not a container), resolution raises the same
    error and the token file is as it was: the file was read, one request
    was sent, nothing was opened for writing. *)
Theorem failed_fetch_keeps_token_file
    (server : http_request -> response) (self : BWUser) (path : string)
    (fromfile : bool) (st : state) (e : exn) :
  must_fetch st self path fromfile ->
  token_answer (resp_json (server (oauth_request self))) = Raise e ->
  assignAccessToken server self path fromfile st
  = (Raise e, log st [EvOpenRead path; EvRequest (oauth_request self)]).
Proof.
  intros Hmiss He.
  rewrite (assignAccessToken_run server self path fromfile st Hmiss), He. reflexivity.
Qed.

Lemma failed_fetch_keeps_token_file_witness :
  assignAccessToken (const_server (PDict [("errors", PStr "denied")]))
                    (new_user "bob" "pw" "") "tokens.txt" true (initial_state alice_disk)
  = (Raise (KeyError [PStr "Cannot get access token"; PStr "denied"]),
     log (initial_state alice_disk)
         [EvOpenRead "tokens.txt"; EvRequest (oauth_request (new_user "bob" "pw" ""))]).
Proof.
  apply (failed_fetch_keeps_token_file (const_server (PDict [("errors", PStr "denied")]))
           (new_user "bob" "pw" "") "tokens.txt" true (initial_state alice_disk)).
  - right. vm_compute. reflexivity.
  - reflexivity.
Defined.

(** X4.  When the fetch returns something that is not a string (null, a
    number, a list, ...), resolution raises TypeError, and it does so after
    the token file was opened for writing: the file is left empty, whatever
    it held for other users. *)
Theorem non_string_token_empties_token_file
    (server : http_request -> response) (self : BWUser) (path : string)
    (fromfile : bool) (st : state) (tok : pyval) :
  must_fetch st self path fromfile ->
  fst (getAccessToken server self st) = Ret tok ->
  is_str tok = false ->
  let result := assignAccessToken server self path fromfile st in
  fst result = Raise TypeError /\
  files (snd result) = <[path := EmptyString]> (files st) /\
  (forall other, cached_token (snd result) path other = None).
Proof.
  intros Hmiss Htok Hstr result. subst result.
  rewrite getAccessToken_run in Htok. cbn [fst] in Htok.
  rewrite (assignAccessToken_run server self path fromfile st Hmiss), Htok.
  destruct tok; try discriminate;
    (split; [reflexivity|]; split; [reflexivity|]; intros other; cbn [snd];
     rewrite cached_token_log, cached_token_with_file; reflexivity).
Qed.

Lemma non_string_token_empties_token_file_witness :
  let result := assignAccessToken (token_server (PInt 5)) (new_user "bob" "pw" "")
                                  "tokens.txt" true (initial_state alice_disk) in
  cached_token (initial_state alice_disk) "tokens.txt" "alice" = Some "tok123" /\
  fst result = Raise TypeError /\
  cached_token (snd result) "tokens.txt" "alice" = None.
Proof.
  intros result.
  destruct (non_string_token_empties_token_file (token_server (PInt 5))
              (new_user "bob" "pw" "") "tokens.txt" true (initial_state alice_disk)
              (PInt 5)) as (Hr & _ & Hlost).
  - right. vm_compute. reflexivity.
  - vm_compute. reflexivity.
  - reflexivity.
  - split; [vm_compute; reflexivity|]. split; [exact Hr|apply Hlost].
Defined.

(** ** More on the token file *)

Lemma dict_set_set {V} k (v v' : V) d : dict_set k v' (dict_set k v d) = dict_set k v' d.
Proof.
  induction d as [|[k0 v0] d IH]; simpl.
  - rewrite String.eqb_refl. reflexivity.
  - destruct (String.eqb k0 k) eqn:E; simpl; rewrite E; [reflexivity|].
    rewrite IH. reflexivity.
Qed.

Lemma dict_get_elem {V} k (v : V) d : dict_get k d = Some v -> (k, v) ∈ d.
Proof.
  induction d as [|[k0 v0] d IH]; simpl; [discriminate|].
  destruct (String.eqb k0 k) eqn:E.
  - apply String.eqb_eq in E. subst k0. intros [= ->]. apply elem_of_cons. left. reflexivity.
  - intros H. apply elem_of_cons. right. apply IH, H.
Qed.

Lemma split_app sep a b :
  split sep (a +:+ String sep b) = split sep a ++ split sep b.
Proof.
  induction a as [|c a IH].
  - rewrite append_nil_l. simpl. rewrite Ascii.eqb_refl. reflexivity.
  - rewrite append_cons. simpl. rewrite IH. destruct (Ascii.eqb c sep); [reflexivity|].
    destruct (split sep a) as [|w ws] eqn:Ea; [|reflexivity].
    destruct a as [|x a']; simpl in Ea; [discriminate|].
    destruct (Ascii.eqb x sep); [discriminate|].
    destruct (split sep a'); discriminate.
Qed.

Lemma token_records_app a b :
  token_records (a +:+ lf_s +:+ b) = token_records a ++ token_records b.
Proof.
  unfold token_records. change (lf_s +:+ b) with (String LF b).
  rewrite split_app. apply omap_app.
Qed.

Lemma token_records_line line :
  has_char LF line = false ->
  token_records line = match split TAB line with [k; v] => [(k, v)] | _ => [] end.
Proof.
  intros H. unfold token_records. rewrite (split_no_sep _ _ H).
  cbn [omap list_omap]. destruct (split TAB line) as [|k [|v [|? ?]]]; reflexivity.
Qed.

Lemma parse_tokens_app a b :
  parse_tokens (a +:+ lf_s +:+ b)
  = fold_left (fun d kv => dict_set (fst kv) (snd kv) d) (token_records b) (parse_tokens a).
Proof.
  unfold parse_tokens, dict_of_pairs. rewrite token_records_app. apply fold_left_app.
Qed.

(** X5.  A forced refresh after a save leaves the token file exactly as if
    the new token had been saved in the first place: the entry of the user
    is replaced where it stands and nothing accumulates.  With the same
    token the file does not change at all. *)
Theorem refresh_replaces_saved_token
    (server server' : http_request -> response) (self : BWUser) (path : string)
    (fromfile : bool) (st : state) (t t' : string) :
  clean (username self) = true -> clean t = true ->
  grants server self t -> must_fetch st self path fromfile ->
  grants server' self t' ->
  let st1 := snd (assignAccessToken server self path fromfile st) in
  let st2 := snd (assignAccessToken server' self path false st1) in
  fst (assignAccessToken server' self path false st1) = Ret t' /\
  files st2 = <[path := saved_text (files st !! path) (username self) t']> (files st) /\
  (t' = t -> files st2 = files st1).
Proof.
  intros Hu Ht Hg Hmiss Hg' st1 st2.
  assert (H1 : files st1 = <[path := saved_text (files st !! path) (username self) t]> (files st)).
  { subst st1. rewrite (assignAccessToken_fetch server self path fromfile st t Hg Hmiss).
    reflexivity. }
  assert (H2 : files st2 = <[path := saved_text (files st !! path) (username self) t']> (files st)).
  { subst st2.
    rewrite (assignAccessToken_fetch server' self path false st1 t' Hg' (or_introl eq_refl)).
    cbn [snd log with_file files]. rewrite H1, lookup_insert_eq, insert_insert_eq.
    f_equal. cbn [saved_text]. rewrite (saved_text_parse _ _ _ Hu Ht), dict_set_set.
    symmetry. apply saved_text_serialize. }
  split; [|split; [exact H2|]].
  - rewrite (assignAccessToken_fetch server' self path false st1 t' Hg' (or_introl eq_refl)).
    reflexivity.
  - intros ->. rewrite H1, H2. reflexivity.
Qed.

Lemma refresh_replaces_saved_token_witness :
  let st1 := snd (assignAccessToken (token_server (PStr "old")) (new_user "alice" "" "")
                                    "tokens.txt" false (initial_state alice_disk)) in
  let st2 := snd (assignAccessToken (token_server (PStr "new")) (new_user "alice" "" "")
                                    "tokens.txt" false st1) in
  files st2 !! "tokens.txt" = Some ("alice" +:+ tab_s +:+ "new").
Proof.
  intros st1 st2.
  destruct (refresh_replaces_saved_token (token_server (PStr "old"))
              (token_server (PStr "new")) (new_user "alice" "" "") "tokens.txt" false
              (initial_state alice_disk) "old" "new" eq_refl eq_refl
              (token_server_grants _ _) (or_introl eq_refl) (token_server_grants _ _))
    as (_ & Hfiles & _).
  subst st2 st1. rewrite Hfiles, lookup_insert_eq. vm_compute. reflexivity.
Defined.

(** X6.  A line that does not have exactly two tab-separated fields adds
    nothing to what is read from the token file; the empty last line that a
    final newline gives is one. *)
Theorem parse_tokens_skips_line (text line : string) :
  has_char LF line = false -> field_count line <> 2 ->
  parse_tokens (text +:+ lf_s +:+ line) = parse_tokens text.
Proof.
  intros Hlf Hn. rewrite parse_tokens_app, (token_records_line _ Hlf).
  unfold field_count in Hn.
  destruct (split TAB line) as [|k [|v [|? ?]]]; try reflexivity.
  exfalso. apply Hn. reflexivity.
Qed.

Lemma parse_tokens_skips_line_witness :
  parse_tokens (("alice" +:+ tab_s +:+ "tok123") +:+ lf_s +:+ "") = [("alice", "tok123")] /\
  parse_tokens (("alice" +:+ tab_s +:+ "tok123") +:+ lf_s +:+ "bob tok9")
    = [("alice", "tok123")].
Proof.
  split.
  - rewrite (parse_tokens_skips_line ("alice" +:+ tab_s +:+ "tok123") "" eq_refl);
      [reflexivity|vm_compute; discriminate].
  - rewrite (parse_tokens_skips_line ("alice" +:+ tab_s +:+ "tok123") "bob tok9" eq_refl);
      [reflexivity|vm_compute; discriminate].
Defined.

(** X7.  A record line added at the end of the token file sets the token of
    its user: when a user has several lines the last one is the one read,
    at the place of the first. *)
Theorem parse_tokens_last_line_wins (text u t : string) :
  has_char TAB u = false -> has_char LF u = false ->
  has_char TAB t = false -> has_char LF t = false ->
  parse_tokens (text +:+ lf_s +:+ (u +:+ tab_s +:+ t)) = dict_set u t (parse_tokens text) /\
  dict_get u (parse_tokens (text +:+ lf_s +:+ (u +:+ tab_s +:+ t))) = Some t.
Proof.
  intros Htu Hlu Htt Hlt.
  assert (H : parse_tokens (text +:+ lf_s +:+ (u +:+ tab_s +:+ t))
              = dict_set u t (parse_tokens text)).
  { rewrite parse_tokens_app, token_records_line.
    - change (u +:+ tab_s +:+ t) with (join tab_s [u; t]).
      rewrite (record_line_split u t Htu Htt). reflexivity.
    - change (u +:+ tab_s +:+ t) with (join tab_s [u; t]).
      apply record_line_free; [discriminate|assumption|assumption]. }
  split; [exact H|]. rewrite H. apply dict_get_set_eq.
Qed.

Lemma parse_tokens_last_line_wins_witness :
  parse_tokens (("alice" +:+ tab_s +:+ "tok123" +:+ lf_s +:+ "bob" +:+ tab_s +:+ "tok9")
                +:+ lf_s +:+ ("alice" +:+ tab_s +:+ "tok456"))
  = [("alice", "tok456"); ("bob", "tok9")].
Proof.
  rewrite (proj1 (parse_tokens_last_line_wins
             ("alice" +:+ tab_s +:+ "tok123" +:+ lf_s +:+ "bob" +:+ tab_s +:+ "tok9")
             "alice" "tok456" eq_refl eq_refl eq_refl eq_refl)).
  vm_compute. reflexivity.
Defined.

(** X8.  What the cache gives is always a well-formed pair: a user found in
    the token file has a name without tab, line feed and carriage return,
    and so has the token returned for it.  A user whose name has such a
    character is never found. *)
Theorem cached_pair_is_clean (st : state) (path u t : string) :
  cached_token st path u = Some t -> clean u = true /\ clean t = true.
Proof.
  unfold cached_token. destruct (files st !! path) as [raw|]; [|discriminate].
  intros H. apply dict_get_elem in H.
  pose proof (parse_tokens_clean raw) as Hc. rewrite Forall_forall in Hc.
  apply (Hc _ H).
Qed.

Lemma cached_pair_is_clean_witness : clean "alice" = true /\ clean "tok123" = true.
Proof.
  apply (cached_pair_is_clean (initial_state alice_disk) "tokens.txt" "alice" "tok123").
  vm_compute. reflexivity.
Defined.

(** ** More on the dispatcher *)

Lemma injected_frame st tok l :
  files (injected st tok l) = files st /\
  next_loc (injected st tok l) = next_loc st /\
  trace (injected st tok l) = trace st.
Proof. unfold injected, with_dict. destruct (negb (String.eqb tok "")); repeat split. Qed.

Lemma injected_empty_token st l : injected st EmptyString l = st.
Proof. reflexivity. Qed.

Lemma bare_request_state server self v root suffix tok params data st :
  exists evs,
    snd (bare_request server self v root suffix tok params data st)
    = log (injected st tok (default bare_request_params_default params)) evs.
Proof.
  rewrite bare_request_run. destruct (report_decision _ _); eexists; reflexivity.
Qed.

Lemma bare_request_keeps_heap server self v root suffix tok params data st l :
  l <> default bare_request_params_default params ->
  heap (snd (bare_request server self v root suffix tok params data st)) !!! l
  = heap st !!! l.
Proof.
  intros Hl.
  destruct (bare_request_state server self v root suffix tok params data st) as [evs ->].
  cbn [log heap]. apply injected_lookup_ne. congruence.
Qed.

Lemma bare_request_keeps_files server self v root suffix tok params data st :
  files (snd (bare_request server self v root suffix tok params data st)) = files st.
Proof.
  destruct (bare_request_state server self v root suffix tok params data st) as [evs ->].
  cbn [log files]. apply injected_frame.
Qed.

(** X9.  Whatever comes back, a call of the dispatcher changes one thing
    besides the console: the mapping passed as [params], and that only when
    the token is not empty.  The token file, every other dictionary (the
    [data] one included) and, with an empty token, all dictionaries are as
    before. *)
Theorem dispatcher_frame
    (server : http_request -> response) (self : BWUser) (v : verb)
    (root suffix tok : string) (params : option loc) (data : option data_arg) (st : state) :
  let p := default bare_request_params_default params in
  let st' := snd (bare_request server self v root suffix tok params data st) in
  files st' = files st /\
  next_loc st' = next_loc st /\
  (forall l, l <> p -> heap st' !!! l = heap st !!! l) /\
  (tok = EmptyString -> heap st' = heap st).
Proof.
  intros p st'. subst st'.
  destruct (bare_request_state server self v root suffix tok params data st) as [evs ->].
  fold p. destruct (injected_frame st tok p) as (Hf & Hn & _).
  cbn [log files heap next_loc].
  split; [exact Hf|]. split; [exact Hn|]. split.
  - intros l Hl. apply injected_lookup_ne. congruence.
  - intros ->. reflexivity.
Qed.

Lemma dispatcher_frame_witness :
  heap (snd (bare_request (const_server error_body) plain_user GET
               "https://newapi.brandwatch.com/" "me" "" None None (initial_state ∅)))
  = heap (initial_state ∅).
Proof.
  apply (dispatcher_frame (const_server error_body) plain_user GET
           "https://newapi.brandwatch.com/" "me" "" None None (initial_state ∅)).
  reflexivity.
Defined.

(** X10.  When the answer is an object and either it has no non-empty
    [errors] or the instance has [console_report], a request returns that
    object, after these effects in this order: the pause, the request, the
    body printed if it has non-empty [errors] and [console_report] is
    True, the URL printed. *)
Theorem request_returns_object
    (server : http_request -> response) (self : BWUser) (v : verb) (address : string)
    (params : option loc) (data : option data_arg) (st : state) (d : dict pyval) :
  let p := default request_params_default params in
  let st1 := injected st (token self) p in
  let req := built_request v (apiurl self +:+ address) (heap st1 !!! p)
                           (body_of st1 (default (DataRef request_data_default) data)) in
  resp_json (server req) = PDict d ->
  errors_nonempty d = false \/ console_report self <> None ->
  request server self v address params data st =
    (Ret (PDict d),
     log st1 ([EvSleep; EvRequest req]
              ++ (if errors_nonempty d && bool_decide (console_report self = Some true)
                  then [EvPrint (PDict d)] else [])
              ++ [EvPrintUrl (resp_url (server req))])).
Proof.
  intros p st1 req Hj Hok. subst req st1 p.
  unfold request. rewrite bare_request_run. cbn [default from_option id] in *.
  rewrite Hj. unfold errors_nonempty in *.
  destruct (dict_get "errors" d) as [errs|] eqn:Hd.
  - destruct (truthy errs) eqn:Ht.
    + rewrite (report_decision_errors _ _ _ Hd Ht).
      destruct (console_report self) as [[|]|]; [reflexivity|reflexivity|].
      destruct Hok as [Hok|Hok]; [discriminate|contradiction].
    + rewrite report_decision_quiet by (rewrite Hd; exact Ht). reflexivity.
  - rewrite report_decision_quiet by (rewrite Hd; exact I). reflexivity.
Qed.

Lemma request_returns_object_witness :
  fst (get_self (const_server error_body) project_user (initial_state ∅)) = Ret error_body /\
  fst (get_self (const_server (PDict [("id", PInt 7)])) plain_user (initial_state ∅))
    = Ret (PDict [("id", PInt 7)]).
Proof.
  split.
  - unfold get_self.
    rewrite (request_returns_object (const_server error_body) project_user GET "me"
               None None (initial_state ∅) [("errors", PList [PStr "bad query"])] eq_refl);
      [reflexivity|right; discriminate].
  - unfold get_self.
    rewrite (request_returns_object (const_server (PDict [("id", PInt 7)])) plain_user GET
               "me" None None (initial_state ∅) [("id", PInt 7)] eq_refl);
      [reflexivity|left; reflexivity].
Defined.

(** X11.  When the answer is null, a boolean or a number, a request raises
    TypeError on line 136: the request has been sent, and neither the body
    nor the URL is printed. *)
Theorem request_scalar_body_raises
    (server : http_request -> response) (self : BWUser) (v : verb) (address : string)
    (params : option loc) (data : option data_arg) (st : state) :
  let p := default request_params_default params in
  let st1 := injected st (token self) p in
  let req := built_request v (apiurl self +:+ address) (heap st1 !!! p)
                           (body_of st1 (default (DataRef request_data_default) data)) in
  is_scalar (resp_json (server req)) = true ->
  request server self v address params data st
  = (Raise TypeError, log st1 [EvSleep; EvRequest req]).
Proof.
  intros p st1 req Hs. subst req st1 p.
  unfold request. rewrite bare_request_run. cbn [default from_option id] in *.
  destruct (resp_json _); try discriminate; reflexivity.
Qed.

Lemma request_scalar_body_raises_witness :
  fst (get_self (const_server PNone) project_user (initial_state ∅)) = Raise TypeError.
Proof.
  unfold get_self.
  rewrite (request_scalar_body_raises (const_server PNone) project_user GET "me"
             None None (initial_state ∅) eq_refl).
  reflexivity.
Defined.

(** ** The verb methods and their default arguments *)

Lemma call_run server v self endpoint st :
  Project.call server v self endpoint st
  = bare_request server (as_user self) v (apiurl (as_user self))
                 (project_address self +:+ endpoint) (token (as_user self))
                 (Some (params_default_of v)) (Some (DataRef (data_default_of v))) st.
Proof. destruct v; reflexivity. Qed.

Lemma params_default_not_data v v' : data_default_of v' <> params_default_of v.
Proof. destruct v, v'; discriminate. Qed.

Lemma params_default_inj v v' : v <> v' -> params_default_of v' <> params_default_of v.
Proof. destruct v, v'; intros H; try discriminate; contradiction. Qed.

(** X12.  As long as nothing has written to the default [data]
    dictionaries, a verb method called without [data] sends a request with
    its own verb, without entity and without header, whose parameters are
    those of the method's default mapping with the token; and the default
    [data] dictionaries are still empty afterwards. *)
Theorem verb_without_data_sends_no_entity
    (server : http_request -> response) (v : verb) (self : BWProject)
    (endpoint : string) (st : state) :
  data_defaults_empty st ->
  let st' := snd (Project.call server v self endpoint st) in
  (exists req,
     requests_of (trace st') = requests_of (trace st) ++ [req] /\
     req_verb req = v /\ req_data req = None /\ req_headers req = [] /\
     req_params req
       = inject_token (token (as_user self)) (heap st !!! params_default_of v)) /\
  data_defaults_empty st'.
Proof.
  intros Hempty st'. subst st'. rewrite call_run. split.
  - eexists. split; [apply bare_request_sends|].
    cbn [default from_option id body_of].
    rewrite (injected_lookup_ne st _ _ _ (not_eq_sym (params_default_not_data v v))), Hempty.
    repeat split; reflexivity.
  - intros v'.
    rewrite bare_request_keeps_heap; [apply Hempty|apply params_default_not_data].
Qed.

Lemma initial_data_defaults_empty disk : data_defaults_empty (initial_state disk).
Proof. intros v. unfold initial_state. cbn [heap]. rewrite lookup_total_empty. reflexivity. Qed.

Lemma verb_without_data_sends_no_entity_witness :
  exists req,
    requests_of (trace (snd (Project.call (const_server PNone) POST acme_session "queries"
                                          (initial_state ∅))))
      = [req] /\
    req_verb req = POST /\ req_data req = None /\ req_headers req = [].
Proof.
  destruct (verb_without_data_sends_no_entity (const_server PNone) POST acme_session
              "queries" (initial_state ∅) (initial_data_defaults_empty ∅))
    as ((req & Hs & Hv & Hd & Hh & _) & _).
  exists req. repeat split; assumption.
Defined.

(** X13.  Each verb method has a default mapping of its own.  After a call
    without [params], that mapping holds the token; every other dictionary
    is as before.  So a second call of the same method starts from the
    mapping the first one left, and a call of another method does not. *)
Theorem verb_defaults_are_separate
    (server : http_request -> response) (v v' : verb) (s1 s2 : BWProject)
    (e1 e2 : string) (st : state) :
  let st1 := snd (Project.call server v s1 e1 st) in
  let st2 := snd (Project.call server v' s2 e2 st1) in
  heap st1 !!! params_default_of v
    = inject_token (token (as_user s1)) (heap st !!! params_default_of v) /\
  (forall l, l <> params_default_of v -> heap st1 !!! l = heap st !!! l) /\
  exists req2,
    requests_of (trace st2) = requests_of (trace st1) ++ [req2] /\
    (v' = v ->
       req_params req2
       = inject_token (token (as_user s2))
           (inject_token (token (as_user s1)) (heap st !!! params_default_of v))) /\
    (v' <> v ->
       req_params req2
       = inject_token (token (as_user s2)) (heap st !!! params_default_of v')).
Proof.
  intros st1 st2.
  assert (H1 : heap st1 !!! params_default_of v
               = inject_token (token (as_user s1)) (heap st !!! params_default_of v)).
  { subst st1. rewrite call_run, bare_request_heap. apply injected_lookup. }
  assert (H2 : forall l, l <> params_default_of v -> heap st1 !!! l = heap st !!! l).
  { intros l Hl. subst st1. rewrite call_run. apply bare_request_keeps_heap. exact Hl. }
  split; [exact H1|]. split; [exact H2|].
  subst st2. rewrite (call_run server v' s2 e2 st1).
  eexists. split; [apply bare_request_sends|].
  cbn [default from_option id]. split.
  - intros ->. rewrite H1. unfold built_request. destruct (is_empty_dict _); reflexivity.
  - intros Hne. rewrite (H2 _ (params_default_inj v v' (not_eq_sym Hne))).
    unfold built_request. destruct (is_empty_dict _); reflexivity.
Qed.

Lemma verb_defaults_are_separate_witness :
  exists req2,
    requests_of (trace (snd (Project.call (const_server PNone) DELETE
                               (mk_BWProject empty_token_user "Acme" (PInt 42) "projects/42/")
                               "queries/1"
                               (snd (Project.call (const_server PNone) GET acme_session
                                                  "queries" (initial_state ∅))))))
      = requests_of (trace (snd (Project.call (const_server PNone) GET acme_session
                                              "queries" (initial_state ∅)))) ++ [req2] /\
    req_params req2 = [].
Proof.
  destruct (verb_defaults_are_separate (const_server PNone) GET DELETE acme_session
              (mk_BWProject empty_token_user "Acme" (PInt 42) "projects/42/")
              "queries" "queries/1" (initial_state ∅))
    as (_ & _ & req2 & Hs & _ & Hother).
  exists req2. split; [exact Hs|].
  rewrite Hother; [|discriminate].
  unfold initial_state. cbn [heap]. rewrite lookup_total_empty. reflexivity.
Defined.

(** ** More on the validators *)

Section ValidatorsMore.

Variable server : http_request -> response.

Lemma validate_state self address kwargs st :
  dict_mem "query" kwargs = true ->
  let sent := if dict_mem "language" kwargs then kwargs
              else dict_set "language" (PList [PStr "en"]) kwargs in
  let st0 := mk_state (files st) (<[next_loc st := sent]> (heap st)) (S (next_loc st))
                      (trace st) in
  snd (validate server self address kwargs st)
  = snd (bare_request server self GET (apiurl self) address (token self)
                      (Some (next_loc st)) (Some (DataRef request_data_default)) st0).
Proof.
  intros Hq sent st0. rewrite (validate_run server self address kwargs st Hq).
  fold sent st0.
  destruct (bare_request _ _ _ _ _ _ _ _ st0) as [[j|e] st2]; [|reflexivity].
  destruct (py_getitem j "errors") as [errs|e]; [|reflexivity].
  destruct (truthy errs); reflexivity.
Qed.

End ValidatorsMore.

(** X14.  A validator on an answer without non-empty errors, on any
    instance: when the answer has an [errors] field (empty list, null,
    ...) the call returns normally; when the answer has no [errors] field
    at all the call raises the missing-key error for ["errors"]. *)
Theorem validator_without_errors
    (server : http_request -> response) (self : BWUser) (address : string)
    (kwargs : dict pyval) (st : state) :
  dict_mem "query" kwargs = true ->
  exists req,
    requests_of (trace (snd (validate server self address kwargs st)))
      = requests_of (trace st) ++ [req] /\
    forall d,
      resp_json (server req) = PDict d -> errors_nonempty d = false ->
      fst (validate server self address kwargs st) =
        match dict_get "errors" d with
        | Some _ => Ret tt
        | None => Raise (KeyError [PStr "errors"])
        end.
Proof.
  intros Hq.
  pose proof (validate_state server self address kwargs st Hq) as Hst.
  rewrite Hst. rewrite (validate_run server self address kwargs st Hq).
  cbv zeta in *.
  set (st0 := mk_state _ _ _ _) in *.
  pose proof (bare_request_sends server self GET (apiurl self) address (token self)
                (Some (next_loc st)) (Some (DataRef request_data_default)) st0) as Hs.
  pose proof (bare_request_run server self GET (apiurl self) address (token self)
                (Some (next_loc st)) (Some (DataRef request_data_default)) st0) as Hr.
  cbn [default from_option id] in Hs, Hr. rewrite injected_lookup in Hr.
  eexists. split; [exact Hs|].
  intros d Hj Hquiet. rewrite Hr, Hj. unfold errors_nonempty in Hquiet.
  rewrite report_decision_quiet.
  - cbn [py_getitem]. destruct (dict_get "errors" d) as [errs|]; [|reflexivity].
    rewrite Hquiet. reflexivity.
  - destruct (dict_get "errors" d); [exact Hquiet|exact I].
Qed.

Lemma validator_without_errors_witness :
  fst (validate_query_search (const_server (PDict [("errors", PList [])])) plain_user
                             query_kwargs (initial_state ∅)) = Ret tt /\
  fst (validate_rule_search (const_server (PDict [("valid", PBool true)])) plain_user
                            query_kwargs (initial_state ∅)) = Raise (KeyError [PStr "errors"]).
Proof.
  split.
  - destruct (validator_without_errors (const_server (PDict [("errors", PList [])]))
                plain_user "query-validation" query_kwargs (initial_state ∅) eq_refl)
      as (req & _ & H).
    apply (H [("errors", PList [])] eq_refl eq_refl).
  - destruct (validator_without_errors (const_server (PDict [("valid", PBool true)]))
                plain_user "query-validation/searchwithin" query_kwargs (initial_state ∅)
                eq_refl)
      as (req & _ & H).
    apply (H [("valid", PBool true)] eq_refl eq_refl).
Defined.

(** X15.  A validator works on a dictionary of its own.  Without [query]
    it changes nothing at all.  With [query] it creates one dictionary, the
    keyword arguments with [language] and the token, and leaves the token
    file and every dictionary that existed before as they were: the token
    does not get into any default mapping. *)
Theorem validator_frame
    (server : http_request -> response) (self : BWUser) (address : string)
    (kwargs : dict pyval) (st : state) :
  let st' := snd (validate server self address kwargs st) in
  let sent := if dict_mem "language" kwargs then kwargs
              else dict_set "language" (PList [PStr "en"]) kwargs in
  files st' = files st /\
  (forall l, l <> next_loc st -> heap st' !!! l = heap st !!! l) /\
  (dict_mem "query" kwargs = false -> st' = st) /\
  (dict_mem "query" kwargs = true ->
     next_loc st' = S (next_loc st) /\
     heap st' !!! next_loc st = inject_token (token self) sent).
Proof.
  intros st' sent. subst st'.
  destruct (dict_mem "query" kwargs) eqn:Hq.
  - rewrite (validate_state server self address kwargs st Hq). fold sent.
    set (st0 := mk_state _ _ _ _).
    destruct (bare_request_state server self GET (apiurl self) address (token self)
                (Some (next_loc st)) (Some (DataRef request_data_default)) st0) as [evs ->].
    cbn [default from_option id log files heap next_loc].
    destruct (injected_frame st0 (token self) (next_loc st)) as (Hf & Hn & _).
    split; [rewrite Hf; reflexivity|]. split; [|split; [discriminate|]].
    + intros l Hl. rewrite injected_lookup_ne by congruence.
      subst st0. cbn [heap]. apply lookup_total_insert_ne. congruence.
    + intros _. split; [rewrite Hn; reflexivity|].
      rewrite injected_lookup. subst st0. cbn [heap]. rewrite lookup_total_insert_eq.
      reflexivity.
  - rewrite (validate_requires_query server self address kwargs st Hq). cbn [snd].
    split; [reflexivity|]. split; [reflexivity|]. split; [reflexivity|discriminate].
Qed.

Lemma validator_frame_witness :
  let st' := snd (validate_query_search (const_server error_body) project_user query_kwargs
                                        (initial_state ∅)) in
  heap st' !!! request_params_default = [] /\
  heap st' !!! 12
    = [("query", PStr "cat AND"); ("language", PList [PStr "en"]);
       ("access_token", PStr "tok123")].
Proof.
  intros st'.
  destruct (validator_frame (const_server error_body) project_user "query-validation"
              query_kwargs (initial_state ∅)) as (_ & Hold & _ & Hnew).
  split.
  - subst st'. unfold validate_query_search. rewrite Hold; [|discriminate].
    unfold initial_state. cbn [heap]. rewrite lookup_total_empty. reflexivity.
  - destruct (Hnew eq_refl) as [_ H]. exact H.
Defined.

(** ** More on project instances *)

Section ProjectMore.

Variable server : http_request -> response.
Variable repr_container : pyval -> string.

Lemma opens_of_app a b : opens_of (a ++ b) = opens_of a ++ opens_of b.
Proof. unfold opens_of. apply omap_app. Qed.

Lemma bare_request_opens self v root suffix tok params data st :
  opens_of (trace (snd (bare_request server self v root suffix tok params data st)))
  = opens_of (trace st).
Proof.
  rewrite bare_request_run.
  destruct (injected_frame st tok (default bare_request_params_default params))
    as (_ & _ & Ht).
  destruct (report_decision _ _) as [b|e]; cbn [snd log trace];
    rewrite !opens_of_app, Ht; [destruct b|]; cbn; rewrite app_nil_r; reflexivity.
Qed.

Lemma get_projects_state self st :
  snd (get_projects server self st) = snd (request server self GET "projects" None None st).
Proof.
  unfold get_projects, bind, lift, ret.
  destruct (request server self GET "projects" None None st) as [[j|e] st1]; [|reflexivity].
  destruct (py_in "results" j) as [[|]|e]; reflexivity.
Qed.

Lemma get_project_state self project st :
  snd (Project.get_project server repr_container self project st)
  = snd (request server (as_user self) GET "projects" None None st).
Proof.
  unfold Project.get_project, bind, lift.
  rewrite <- get_projects_state.
  destruct (get_projects server (as_user self) st) as [[j|e] st1]; [|reflexivity].
  destruct (py_iter j); reflexivity.
Qed.

(** What a successful scan returns. *)
Lemma scan_ret self project items s :
  Project.scan_projects repr_container self project items = Ret s ->
  exists p id,
    p ∈ items /\ py_getitem p "name" = Ret (PStr project) /\ py_getitem p "id" = Ret id /\
    s = resolved repr_container (as_user self) project id.
Proof.
  induction items as [|q items IH]; cbn [Project.scan_projects]; [discriminate|].
  destruct (py_getitem q "name") as [n|e] eqn:Hn; [|discriminate].
  destruct (eq_str n project) eqn:He.
  - destruct (py_getitem q "id") as [id|e] eqn:Hid; [|discriminate].
    intros [= <-]. exists q, id. split; [apply elem_of_cons; left; reflexivity|].
    split; [|split; [exact Hid|reflexivity]].
    destruct n as [| | |n| |]; try discriminate. cbn [eq_str] in He.
    apply String.eqb_eq in He. subst n. exact Hn.
  - intros H. destruct (IH H) as (p & id & Hin & Hrest).
    exists p, id. split; [apply elem_of_cons; right; exact Hin|exact Hrest].
Qed.

Lemma BWUser_init_ret user pw tok path st u st0 :
  BWUser_init server user pw tok path st = (Ret u, st0) ->
  exists t, u = new_user user pw t /\ (tok <> EmptyString -> t = tok /\ st0 = st).
Proof.
  unfold BWUser_init. destruct (String.eqb tok "") eqn:E; cbn [negb].
  - apply String.eqb_eq in E. subst tok. unfold bind.
    destruct (assignAccessToken _ _ _ _ _) as [[t|e] st1]; [|discriminate].
    intros [= <- <-]. exists t. split; [reflexivity|]. intros H. contradiction.
  - intros [= <- <-]. exists tok. split; [reflexivity|]. intros _. split; reflexivity.
Qed.

End ProjectMore.

(** X16.  Constructing a project instance with an explicit token opens no
    file and sends exactly one request: a GET of the project listing at the
    API root, with the token among its parameters.  This holds whether or
    not the project is then found. *)
Theorem project_init_with_token
    (server : http_request -> response) (repr_container : pyval -> string)
    (user project pw tok path : string) (cr : bool) (st : state) :
  tok <> EmptyString ->
  let st' := snd (Project.init server repr_container user project pw tok path cr st) in
  files st' = files st /\
  opens_of (trace st') = opens_of (trace st) /\
  exists req,
    requests_of (trace st') = requests_of (trace st) ++ [req] /\
    req_verb req = GET /\
    req_url req = "https://newapi.brandwatch.com/projects" /\
    dict_get "access_token" (req_params req) = Some (PStr tok).
Proof.
  intros Hne st'.
  assert (Hst : st' = snd (request server (project_base (new_user user pw tok) cr)
                                   GET "projects" None None st)).
  { subst st'. unfold Project.init, bind, BWUser_init.
    apply String.eqb_neq in Hne. rewrite Hne. cbn [negb ret].
    rewrite (surjective_pairing (Project.get_project _ _ _ _ _)) at 1.
    destruct (Project.get_project server repr_container _ project st) as [[s|e] st1] eqn:Hg;
      pose proof (get_project_state server repr_container
                    (mk_BWProject (project_base (new_user user pw tok) cr)
                                  EmptyString (PInt (-1)) EmptyString) project st) as H;
      unfold project_base, new_user in *; cbn [apiurl oauthpath username password token] in *;
      rewrite Hg in H; exact H. }
  rewrite Hst. unfold request. cbn [default from_option id].
  split; [apply bare_request_keeps_files|]. split; [apply bare_request_opens|].
  eexists. split; [apply bare_request_sends|].
  cbn [default from_option id project_base new_user apiurl token].
  unfold built_request. destruct (is_empty_dict _);
    cbn [req_verb req_url req_params];
    (split; [reflexivity|]; split; [reflexivity|]; apply inject_token_gets, Hne).
Qed.

Lemma project_init_with_token_witness :
  let st' := snd (Project.init (const_server acme_body) no_repr "alice" "Gamma" "" "tok123"
                               "tokens.txt" true (initial_state alice_disk)) in
  opens_of (trace st') = [] /\
  exists req,
    requests_of (trace st') = [req] /\
    req_url req = "https://newapi.brandwatch.com/projects" /\
    dict_get "access_token" (req_params req) = Some (PStr "tok123").
Proof.
  intros st'.
  destruct (project_init_with_token (const_server acme_body) no_repr "alice" "Gamma" ""
              "tok123" "tokens.txt" true (initial_state alice_disk))
    as (_ & Hopen & req & Hs & _ & Hu & Ht); [discriminate|].
  split; [exact Hopen|]. exists req. repeat split; assumption.
Defined.

(** X17.  Whenever the construction of a project instance returns, the
    instance is consistent: it has the project name asked for, the id of an
    element of the listing with that name, the address "projects/" +
    str(id) + "/" for that id, the console flag given, the user name and
    password given and the fixed API root. *)
Theorem project_init_result
    (server : http_request -> response) (repr_container : pyval -> string)
    (user project pw tok path : string) (cr : bool) (st st' : state) (s : BWProject) :
  Project.init server repr_container user project pw tok path cr st = (Ret s, st') ->
  project_name s = project /\
  project_address s
    = "projects/" +:+ Project.py_str repr_container (project_id s) +:+ "/" /\
  console_report (as_user s) = Some cr /\
  username (as_user s) = user /\ password (as_user s) = pw /\
  apiurl (as_user s) = "https://newapi.brandwatch.com/" /\
  (tok <> EmptyString -> token (as_user s) = tok) /\
  exists st0 projects items p,
    get_projects server (as_user s) st0 = (Ret projects, st') /\
    py_iter projects = Ret items /\ p ∈ items /\
    py_getitem p "name" = Ret (PStr project) /\
    py_getitem p "id" = Ret (project_id s).
Proof.
  unfold Project.init, bind at 1.
  destruct (BWUser_init server user pw tok path st) as [[u|e] st0] eqn:Hu; [|discriminate].
  destruct (BWUser_init_ret server user pw tok path st u st0 Hu) as (t & -> & Htok).
  unfold Project.get_project, bind, lift. cbn [as_user].
  destruct (get_projects server (project_base (new_user user pw t) cr) st0)
    as [[projects|e] st1] eqn:Hp; [|discriminate].
  destruct (py_iter projects) as [items|e] eqn:Hi; [|discriminate].
  destruct (Project.scan_projects repr_container _ project items) as [s'|e] eqn:Hs;
    [|discriminate].
  intros [= <- <-].
  destruct (scan_ret repr_container _ project items s' Hs) as (p & id & Hin & Hn & Hid & ->).
  cbn [resolved project_name project_address project_id as_user project_base new_user
       console_report username password apiurl token].
  repeat split.
  - intros H. apply (Htok H).
  - exists st0, projects, items, p. repeat split; assumption.
Qed.

Lemma project_init_result_witness :
  project_address
    (resolved no_repr (project_base (new_user "alice" "" "tok123") true) "Acme" (PInt 42))
  = "projects/" +:+ Project.py_str no_repr (PInt 42) +:+ "/".
Proof.
  apply (project_init_result (const_server acme_body) no_repr "alice" "Acme" "" ""
           "tokens.txt" true (initial_state alice_disk)
           (snd (Project.init (const_server acme_body) no_repr "alice" "Acme" "" ""
                              "tokens.txt" true (initial_state alice_disk)))
           (resolved no_repr (project_base (new_user "alice" "" "tok123") true)
                     "Acme" (PInt 42))).
  vm_compute. reflexivity.
Defined.

(** X18.  When the project listing comes back as an object instead of a
    list (an answer without [results], such as an error object), the scan
    runs over its keys: with at least one key the construction step raises
    TypeError, with none it raises the not-found error. *)
Theorem get_project_on_object_listing
    (server : http_request -> response) (repr_container : pyval -> string)
    (self : BWProject) (project : string) (st st' : state) (d : dict pyval) :
  get_projects server (as_user self) st = (Ret (PDict d), st') ->
  Project.get_project server repr_container self project st =
    (match d with
     | [] => Raise (KeyError [PStr ("Project " +:+ project +:+ " not found")])
     | _ :: _ => Raise TypeError
     end, st').
Proof.
  intros Hp. unfold Project.get_project, bind, lift. rewrite Hp.
  destruct d as [|[k x] d]; reflexivity.
Qed.

Lemma get_project_on_object_listing_witness :
  fst (Project.init (const_server error_body) no_repr "alice" "Acme" "" "tok123"
                    "tokens.txt" true (initial_state ∅)) = Raise TypeError.
Proof.
  unfold Project.init, bind. cbn [BWUser_init String.eqb Ascii.eqb Bool.eqb negb ret].
  rewrite (get_project_on_object_listing (const_server error_body) no_repr _ "Acme"
             (initial_state ∅)
             (snd (get_projects (const_server error_body) project_user (initial_state ∅)))
             [("errors", PList [PStr "bad query"])]).
  - reflexivity.
  - vm_compute. reflexivity.
Defined.

(** X19.  The scan stops with a missing-key error at a malformed element:
    an object without [name] that comes before any element with the name
    asked for gives the error for ["name"], and the first element with that
    name, when it has no [id], gives the error for ["id"], whatever
    follows. *)
Theorem get_project_on_malformed_element
    (server : http_request -> response) (repr_container : pyval -> string)
    (self : BWProject) (project : string) (st st' : state)
    (pre post : list pyval) (d : dict pyval) :
  get_projects server (as_user self) st = (Ret (PList (pre ++ PDict d :: post)), st') ->
  Forall (other_name project) pre ->
  (dict_get "name" d = None ->
     Project.get_project server repr_container self project st
     = (Raise (KeyError [PStr "name"]), st')) /\
  (dict_get "name" d = Some (PStr project) -> dict_get "id" d = None ->
     Project.get_project server repr_container self project st
     = (Raise (KeyError [PStr "id"]), st')).
Proof.
  intros Hp Hpre. unfold Project.get_project, bind, lift. rewrite Hp. cbn [py_iter].
  clear Hp. split.
  - intros Hn. f_equal.
    induction Hpre as [|q pre (n & Hq & Hne) _ IH]; cbn [app Project.scan_projects].
    + cbn [py_getitem]. rewrite Hn. reflexivity.
    + rewrite Hq, Hne. exact IH.
  - intros Hn Hid. f_equal.
    induction Hpre as [|q pre (n & Hq & Hne) _ IH]; cbn [app Project.scan_projects].
    + cbn [py_getitem]. rewrite Hn. cbn [eq_str]. rewrite String.eqb_refl, Hid. reflexivity.
    + rewrite Hq, Hne. exact IH.
Qed.

Lemma get_project_on_malformed_element_witness :
  fst (Project.get_project
         (const_server (PDict [("results", PList [PDict [("name", PStr "Beta"); ("id", PInt 7)];
                                                  PDict [("name", PStr "Acme")];
                                                  PDict [("name", PStr "Acme"); ("id", PInt 42)]])]))
         no_repr (mk_BWProject project_user EmptyString (PInt (-1)) EmptyString)
         "Acme" (initial_state ∅))
  = Raise (KeyError [PStr "id"]).
Proof.
  set (srv := const_server _).
  rewrite (proj2 (get_project_on_malformed_element srv no_repr
                    (mk_BWProject project_user EmptyString (PInt (-1)) EmptyString) "Acme"
                    (initial_state ∅)
                    (snd (get_projects srv project_user (initial_state ∅)))
                    [PDict [("name", PStr "Beta"); ("id", PInt 7)]]
                    [PDict [("name", PStr "Acme"); ("id", PInt 42)]]
                    [("name", PStr "Acme")]
                    ltac:(vm_compute; reflexivity)
                    ltac:(repeat constructor; exists (PStr "Beta"); split; reflexivity))
                 eq_refl eq_refl).
  reflexivity.
Defined.

(** ** The handler of line 171 *)

(** C6.  A token file whose content is not text.  Reading it raises
    ValueError on line 158, inside the [try] block; the clause of line 171
    names [IOError or ValueError], which is the class IOError, so the
    handler is not entered: resolution raises ValueError, no token is
    fetched and nothing is written.  A file that cannot be opened raises
    IOError there, and the handler writes the single line of the current
    user. *)
Theorem undecodable_token_file_is_not_handled
    (fetch : M pyval) (self : BWUser) (path : string) (fromfile : bool) (st : state) :
  assignAccessToken_with (read_undecodable path) fetch self path fromfile st
    = (Raise ValueError, log st [EvOpenRead path]) /\
  is_instance ValueError (class_or IOError_class ValueError_class) = false /\
  files (snd (assignAccessToken_with (read_unopenable "tokens.txt")
                (getAccessToken (token_server (PStr "tok9")) (new_user "bob" "" ""))
                (new_user "bob" "" "") "tokens.txt" true (initial_state ∅)))
    !! "tokens.txt"
    = Some ("bob" +:+ tab_s +:+ "tok9").
Proof.
  split; [reflexivity|]. split; [reflexivity|]. vm_compute. reflexivity.
Qed.

(** X22.  An IOError raised by the fetch inside the [try] block (the
    exceptions of [requests] are IOErrors) is taken by the handler of line
    171, which fetches a second time; when that fetch gives a string, the
    token file is overwritten with the single line of the current user, so
    what it held for other users is gone. *)
Theorem fetch_ioerror_is_retried
    (fetch : M pyval) (self : BWUser) (path : string) (fromfile : bool)
    (st s1 s2 : state) (raw t : string) :
  files st !! path = Some raw ->
  must_fetch st self path fromfile ->
  fetch (log st [EvOpenRead path]) = (Raise IOError, s1) ->
  fetch s1 = (Ret (PStr t), s2) ->
  assignAccessToken_with (read_token_file path) fetch self path fromfile st
  = (Ret t,
     log (with_file s2 path ((username self +:+ tab_s) +:+ t))
         [EvOpenWrite path; EvWrite path ((username self +:+ tab_s) +:+ t)]).
Proof.
  intros Hfile Hmiss H1 H2. unfold must_fetch, cached_token in Hmiss. rewrite Hfile in Hmiss.
  unfold assignAccessToken_with, try_except, read_token_file.
  unfold bind at 1 2. unfold read_file at 1. unfold ret at 1. rewrite Hfile.
  cbn [fmap option_fmap option_map].
  assert (Hgo : match fromfile, dict_get (username self) (parse_tokens (universal_newlines raw)) with
                | true, Some _ => False | _, _ => True end).
  { destruct Hmiss as [->| ->]; [exact I|]. destruct fromfile; exact I. }
  fold (log st [EvOpenRead path]).
  destruct fromfile, (dict_get (username self) (parse_tokens (universal_newlines raw)));
    try contradiction;
    unfold bind at 1; rewrite H1; unfold class_or; cbn [is_instance];
    unfold bind; rewrite H2;
    unfold open_write, write_file, ret, lift, log, with_file, py_concat;
    cbn [files heap next_loc trace];
    rewrite ?insert_insert_eq, <- ?app_assoc; reflexivity.
Qed.

Lemma fetch_ioerror_is_retried_witness :
  let result := assignAccessToken_with (read_token_file "tokens.txt")
                  (flaky_fetch (new_user "bob" "" "") "tok9")
                  (new_user "bob" "" "") "tokens.txt" true (initial_state alice_disk) in
  fst result = Ret "tok9" /\
  cached_token (snd result) "tokens.txt" "alice" = None /\
  length (requests_of (trace (snd result))) = 2%nat.
Proof.
  intros result. subst result.
  rewrite (fetch_ioerror_is_retried (flaky_fetch (new_user "bob" "" "") "tok9")
             (new_user "bob" "" "") "tokens.txt" true (initial_state alice_disk)
             (log (log (initial_state alice_disk) [EvOpenRead "tokens.txt"])
                  [EvRequest (oauth_request (new_user "bob" "" ""))])
             (log (log (log (initial_state alice_disk) [EvOpenRead "tokens.txt"])
                       [EvRequest (oauth_request (new_user "bob" "" ""))])
                  [EvRequest (oauth_request (new_user "bob" "" ""))])
             ("alice" +:+ tab_s +:+ "tok123") "tok9").
  - vm_compute. repeat split; reflexivity.
  - vm_compute. reflexivity.
  - right. vm_compute. reflexivity.
  - reflexivity.
  - reflexivity.
Defined.
